(** * AI-API: the Flask gateway and its Celery tasks (src/AI-API/app.py)

    A shallow embedding of [app.py].  The Flask views and the Celery task
    bodies are functions in a state-and-exception monad over the state of
    the deployment: the Redis instance that serves both as Celery broker
    (the task queue) and as Celery result backend (the result store), the
    tasks the workers are executing, and a ghost log of the calls made to
    the text service [trs].

    Each view and each half of a task body (before and after its
    [time.sleep]) is one atomic step; the interleaving of requests and
    workers is the step relation [step]. *)

From stdpp Require Import gmap strings list fin_maps pretty relations.

Set Warnings "-register-all".
Open Scope string_scope.

(** ** Python values *)

(** The values [request.get_json()] can produce and [jsonify] can render.
    JSON numbers are restricted to integers. *)
Inductive pyval :=
| PNone
| PBool (b : bool)
| PInt (z : Z)
| PStr (s : string)
| PList (l : list pyval)
| PDict (d : gmap string pyval).

(** Python truthiness, as used by [if not text]. *)
Definition truthy (v : pyval) : bool :=
  match v with
  | PNone => false
  | PBool b => b
  | PInt z => negb (z =? 0)%Z
  | PStr s => match s with EmptyString => false | String _ _ => true end
  | PList l => match l with [] => false | _ :: _ => true end
  | PDict d => negb (size d =? 0)%nat
  end.

(** [type(v).__name__], which appears in the AttributeError messages. *)
Definition type_name (v : pyval) : string :=
  match v with
  | PNone => "NoneType"
  | PBool _ => "bool"
  | PInt _ => "int"
  | PStr _ => "str"
  | PList _ => "list"
  | PDict _ => "dict"
  end.

(** An exception instance: its class and [str(e)]. *)
Record exn := Exn { exn_type : string; exn_msg : string }.

Inductive result (A : Type) :=
| Return (a : A)
| Raise (e : exn).
Arguments Return {A} a.
Arguments Raise {A} e.

(** [data.get(key, default)]: defined on dicts only. *)
Definition py_get (data : pyval) (key : string) (dflt : pyval) : result pyval :=
  match data with
  | PDict d => Return (default dflt (d !! key))
  | _ => Raise (Exn "AttributeError"
                  ("'" ++ type_name data ++ "' object has no attribute 'get'"))
  end.

(** ** Flask requests and responses *)

(** A request, as far as the views look at it: what [request.get_json()]
    evaluates to, the parsed body or the exception it raises on a body
    that is not JSON. *)
Record request := Request { get_json : result pyval }.

(** Every view returns [jsonify({code, message, data})], alone (HTTP 200)
    or paired with an HTTP status. *)
Record response := Response {
  http_status : Z;
  code : Z;
  message : string;
  data : pyval
}.

(** ** The text service *)

(** The three capabilities of the text service. *)
Inductive kind := TranslateZhToEn | TranslateEnToZh | Summarize.

(** ** Celery: messages, result metadata, the deployment *)

(** The registered Celery tasks of [app.py]. *)
Inductive celery_task :=
| task_trans_zh_to_en_async
| task_trans_en_to_zh_async
| task_summarize_async.

(** A task message on the broker: [task.delay(text)] of a registered task. *)
Record task_message := TaskMessage {
  msg_id : string;
  msg_task : celery_task;
  msg_text : pyval
}.

(** What the backend keeps of a task's outcome ([AsyncResult.result], alias
    [AsyncResult.info]): a JSON value or an exception instance. *)
Inductive task_info :=
| InfoVal (v : pyval)
| InfoExc (e : exn).

(** The metadata stored under a task id: [status] and [result]. *)
Record meta := Meta { m_state : string; m_info : task_info }.

(** The deployment.  [app.config] gives the broker and the result backend
    the same Redis URL, hence one availability flag.  [next_uuid] is the
    position in the supply of task ids; [calls] is ghost state: the calls
    made to the text service so far. *)
Record system := System {
  queue : list task_message;
  running : list task_message;
  backend : gmap string meta;
  next_uuid : nat;
  redis_up : bool;
  calls : list (kind * pyval)
}.

Definition set_queue (q : list task_message) (st : system) : system :=
  System q (running st) (backend st) (next_uuid st) (redis_up st) (calls st).
Definition set_running (r : list task_message) (st : system) : system :=
  System (queue st) r (backend st) (next_uuid st) (redis_up st) (calls st).
Definition set_backend (b : gmap string meta) (st : system) : system :=
  System (queue st) (running st) b (next_uuid st) (redis_up st) (calls st).
Definition set_next_uuid (n : nat) (st : system) : system :=
  System (queue st) (running st) (backend st) n (redis_up st) (calls st).
Definition set_redis_up (b : bool) (st : system) : system :=
  System (queue st) (running st) (backend st) (next_uuid st) b (calls st).
Definition set_calls (c : list (kind * pyval)) (st : system) : system :=
  System (queue st) (running st) (backend st) (next_uuid st) (redis_up st) c.

(** The deployment at start-up: nothing queued, nothing stored. *)
Definition init : system := System [] [] ∅ 0 true [].

(** ** The monad of views and task bodies *)

Definition M (A : Type) : Type := system → result A * system.

Definition ret {A} (a : A) : M A := λ st, (Return a, st).
Definition raise {A} (e : exn) : M A := λ st, (Raise e, st).
Definition bind {A B} (m : M A) (f : A → M B) : M B :=
  λ st, match m st with
        | (Return a, st') => f a st'
        | (Raise e, st') => (Raise e, st')
        end.
(** [try: m  except Exception as e: h e] *)
Definition try_except {A} (m : M A) (h : exn → M A) : M A :=
  λ st, match m st with
        | (Return a, st') => (Return a, st')
        | (Raise e, st') => h e st'
        end.
(** A computation that neither reads nor writes the deployment. *)
Definition lift {A} (r : result A) : M A := λ st, (r, st).

Notation "x <- m ;; k" := (bind m (λ x, k))
  (at level 100, m at next level, right associativity).
Notation "'try' m 'except' e => h" := (try_except m (λ e, h))
  (at level 100, m at level 200, e name, h at level 100).


(** A Flask [Response] is not JSON; a task that returns one cannot have its
    result stored.  [retval] is what a task body may return. *)
Inductive retval :=
| RetJson (v : pyval)
| RetResponse (r : response).

(** A task body, cut at its [time.sleep]: the worker runs [before_sleep]
    when it takes the message and [after_sleep] when the sleep is over. *)
Record task_body := TaskBody {
  before_sleep : M unit;
  sleep_seconds : nat;
  after_sleep : M retval
}.

Section App.

(** The text service [trs] of module [translations], which is not part of
    the sources: an arbitrary function of the capability and the text that
    returns a text or raises. *)
Variable transform : kind → pyval → result pyval.

(** The supply of task ids ([uuid4] in Celery). *)
Variable uuid : nat → string.

(** Python's [str] on JSON values. *)
Variable py_str : pyval → string.

(** A call of the text service, logged in [calls]. *)
Definition call_service (k : kind) (text : pyval) : M pyval :=
  λ st, (transform k text, set_calls (calls st ++ [(k, text)]) st).

Definition trs_translate_en_to_zh : pyval → M pyval := call_service TranslateEnToZh.
Definition trs_summarize : pyval → M pyval := call_service Summarize.

(** ** The synchronous views (app.py, lines 65-167) *)

Definition trans_zh_to_en (req : request) : M response :=
  try
    (data <- lift (get_json req) ;;
     text <- lift (py_get data "text" (PStr "")) ;;
     if negb (truthy text) then
       ret (Response 400 400 "请输入要进行翻译的中文" PNone)
     else
       translated <- trs_translate_en_to_zh text ;;
       ret (Response 200 200 "翻译成功"
              (PDict {[ "original" := text; "translated" := translated ]})))
  except e =>
    ret (Response 500 500 ("服务器出错," ++ exn_msg e) PNone).

Definition trans_en_to_zh (req : request) : M response :=
  try
    (data <- lift (get_json req) ;;
     text <- lift (py_get data "text" (PStr "")) ;;
     if negb (truthy text) then
       ret (Response 400 400 "请输入要进行翻译的英文" PNone)
     else
       translated <- trs_translate_en_to_zh text ;;
       ret (Response 200 200 "翻译成功"
              (PDict {[ "original" := text; "translated" := translated ]})))
  except e =>
    ret (Response 500 500 ("服务器出错," ++ exn_msg e) PNone).

Definition summarize (req : request) : M response :=
  try
    (data <- lift (get_json req) ;;
     text <- lift (py_get data "text" (PStr "")) ;;
     if negb (truthy text) then
       ret (Response 400 400 "请输入要总结的文本" PNone)
     else
       summarized <- trs_summarize text ;;
       ret (Response 200 200 "总结成功"
              (PDict {[ "original" := text; "summarized" := summarized ]})))
  except e =>
    ret (Response 500 500 ("服务器出错," ++ exn_msg e) PNone).

(** ** Celery primitives *)

Definition redis_error : exn :=
  Exn "OperationalError" "Error 111 connecting to localhost:6379. Connection refused.".

(** [task.delay(text)]: draws a fresh task id and publishes the message;
    returns the id of the [AsyncResult]. *)
Definition delay (t : celery_task) (text : pyval) : M string :=
  λ st,
    let task_id := uuid (next_uuid st) in
    let st1 := set_next_uuid (S (next_uuid st)) st in
    if redis_up st then
      (Return task_id, set_queue (queue st ++ [TaskMessage task_id t text]) st1)
    else (Raise redis_error, st1).

(** The backend's answer for a task id.  Celery keeps no record of a task
    until a worker reports on it: an id without stored metadata is
    reported PENDING with no result.  Celery refuses the empty id with a
    ValueError; the rule [/api/task/<task_id>] never passes one and the id
    supply never draws one, and this case is left out here: the statements
    below about an arbitrary task id are about a non-empty one. *)
Definition get_task_meta (task_id : string) : M meta :=
  λ st,
    if redis_up st then
      (Return (default (Meta "PENDING" (InfoVal PNone)) (backend st !! task_id)), st)
    else (Raise redis_error, st).

Definition AsyncResult_state (task_id : string) : M string :=
  m <- get_task_meta task_id ;; ret (m_state m).
Definition AsyncResult_result (task_id : string) : M task_info :=
  m <- get_task_meta task_id ;; ret (m_info m).
Definition AsyncResult_info : string → M task_info := AsyncResult_result.

(** [self.update_state(state=...)], with no [meta]. *)
Definition update_state (self : string) (state : string) : M unit :=
  λ st,
    if redis_up st then
      (Return tt, set_backend (<[self := Meta state (InfoVal PNone)]> (backend st)) st)
    else (Raise redis_error, st).

(** [jsonify] of a stored result: an exception instance is not JSON. *)
Definition jsonable (i : task_info) : result pyval :=
  match i with
  | InfoVal v => Return v
  | InfoExc e =>
      Raise (Exn "TypeError"
               ("Object of type " ++ exn_type e ++ " is not JSON serializable"))
  end.

(** Truthiness and [str] of a stored result; an exception instance is
    truthy and prints as its message. *)
Definition info_truthy (i : task_info) : bool :=
  match i with InfoVal v => truthy v | InfoExc _ => true end.
Definition info_str (i : task_info) : string :=
  match i with InfoVal v => py_str v | InfoExc e => exn_msg e end.

(** ** The asynchronous views and the status query (lines 169-275) *)

Definition get_task_result (task_id : string) : M response :=
  try
    (state <- AsyncResult_state task_id ;;
     response <-
       (if String.eqb state "PENDING" then
          ret (PDict {[ "status" := PStr "pending"; "result" := PNone ]})
        else if String.eqb state "PROCESSING" then
          ret (PDict {[ "status" := PStr "processing"; "result" := PNone ]})
        else if String.eqb state "SUCCESS" then
          stored <- AsyncResult_result task_id ;;
          result <- lift (jsonable stored) ;;
          ret (PDict {[ "status" := PStr "completed"; "result" := result ]})
        else
          info <- AsyncResult_info task_id ;;
          ret (PDict {[ "status" := PStr "failed";
                        "result" := PNone;
                        "error" := PStr (if info_truthy info then info_str info
                                         else "未知错误") ]})) ;;
     ret (Response 200 200 "成功" response))
  except _e =>
    ret (Response 500 500 "获取任务结果失败" PNone).

Definition create_async_task (task_type : string) (req : request) : M response :=
  try
    (data <- lift (get_json req) ;;
     text <- lift (py_get data "text" (PStr "")) ;;
     if negb (truthy text) then
       ret (Response 400 400 "请输入文本" PNone)
     else
       task <-
         (if String.eqb task_type "zh_to_en" then
            task_id <- delay task_trans_zh_to_en_async text ;; ret (Some task_id)
          else if String.eqb task_type "en_to_zh" then
            task_id <- delay task_trans_en_to_zh_async text ;; ret (Some task_id)
          else if String.eqb task_type "summarize" then
            task_id <- delay task_summarize_async text ;; ret (Some task_id)
          else ret None) ;;
       match task with
       | None => ret (Response 400 400 "未知任务类型" PNone)
       | Some task_id =>
           ret (Response 200 200 "任务已提交"
                  (PDict {[ "task_id" := PStr task_id;
                            "status" := PStr "pending";
                            "result_url" := PStr ("/api/task/" ++ task_id) ]}))
       end)
  except _e =>
    ret (Response 500 500 "服务暂时不可用" PNone).

Definition async_zh_to_en_translation : request → M response :=
  create_async_task "zh_to_en".
Definition async_en_to_zh_translation : request → M response :=
  create_async_task "en_to_zh".
Definition async_summarize : request → M response :=
  create_async_task "summarize".

(** ** The Celery tasks (lines 277-298) *)

(** Python's message for a call with the wrong number of positional
    arguments. *)
Definition arity_error (name : string) (params given : nat) : exn :=
  Exn "TypeError"
    (name ++ "() takes " ++ pretty params ++ " positional argument"
       ++ (if (params =? 1)%nat then "" else "s") ++ " but " ++ pretty given
       ++ (if (given =? 1)%nat then " was" else " were") ++ " given").

(** A Python call [view(args...)] of one of the views above.  They are
    declared without parameters ([def trans_zh_to_en():]) and read the
    request of the Flask context they run in: [ctx] is that context, absent
    in a Celery worker, where building a response with [jsonify] raises. *)
Definition py_call_view (name : string) (view : request → M response)
    (args : list pyval) (ctx : option request) : M response :=
  match args with
  | [] =>
      match ctx with
      | Some req => view req
      | None => raise (Exn "RuntimeError" "Working outside of application context.")
      end
  | _ :: _ => raise (arity_error name 0 (length args))
  end.

Definition trans_zh_to_en_async (self : string) (text : pyval) : task_body :=
  {| before_sleep := update_state self "PROCESSING";
     sleep_seconds := 2;
     after_sleep :=
       r <- py_call_view "trans_zh_to_en" trans_zh_to_en [text] None ;;
       ret (RetResponse r) |}.

Definition trans_en_to_zh_async (self : string) (text : pyval) : task_body :=
  {| before_sleep := update_state self "PROCESSING";
     sleep_seconds := 2;
     after_sleep :=
       r <- py_call_view "trans_en_to_zh" trans_en_to_zh [text] None ;;
       ret (RetResponse r) |}.

Definition summarize_async (self : string) (text : pyval) : task_body :=
  {| before_sleep := update_state self "PROCESSING";
     sleep_seconds := 3;
     after_sleep :=
       r <- py_call_view "summarize" summarize [text] None ;;
       ret (RetResponse r) |}.

(** ** The worker *)

Definition task_fn (t : celery_task) : string → pyval → task_body :=
  match t with
  | task_trans_zh_to_en_async => trans_zh_to_en_async
  | task_trans_en_to_zh_async => trans_en_to_zh_async
  | task_summarize_async => summarize_async
  end.

Definition run (m : task_message) : task_body :=
  task_fn (msg_task m) (msg_id m) (msg_text m).

Definition mark_as_done (task_id : string) (v : pyval) (st : system) : system :=
  set_backend (<[task_id := Meta "SUCCESS" (InfoVal v)]> (backend st)) st.
Definition mark_as_failure (task_id : string) (e : exn) (st : system) : system :=
  set_backend (<[task_id := Meta "FAILURE" (InfoExc e)]> (backend st)) st.

Definition encode_error : exn :=
  Exn "EncodeError" "Object of type Response is not JSON serializable".

(** A worker takes the message at the head of the queue and runs the task
    up to its sleep. *)
Definition worker_begin (st : system) : option system :=
  if redis_up st then
    match queue st with
    | [] => None
    | m :: q =>
        match before_sleep (run m) (set_queue q st) with
        | (Return _, st') => Some (set_running (running st' ++ [m]) st')
        | (Raise e, st') => Some (mark_as_failure (msg_id m) e st')
        end
    end
  else None.

(** The [i]-th running task wakes up and runs to its end; the worker
    stores the outcome: the returned value, or the exception raised by the
    task or by the encoding of what it returned. *)
Definition worker_end (i : nat) (st : system) : option system :=
  if redis_up st then
    match running st !! i with
    | None => None
    | Some m =>
        match after_sleep (run m) (set_running (delete i (running st)) st) with
        | (Return (RetJson v), st') => Some (mark_as_done (msg_id m) v st')
        | (Return (RetResponse _), st') =>
            Some (mark_as_failure (msg_id m) encode_error st')
        | (Raise e, st') => Some (mark_as_failure (msg_id m) e st')
        end
    end
  else None.

(** ** The deployment as a transition system *)

Inductive step : system → system → Prop :=
| step_sync_zh_to_en req st r st' :
    trans_zh_to_en req st = (r, st') → step st st'
| step_sync_en_to_zh req st r st' :
    trans_en_to_zh req st = (r, st') → step st st'
| step_sync_summarize req st r st' :
    summarize req st = (r, st') → step st st'
| step_submit task_type req st r st' :
    create_async_task task_type req st = (r, st') → step st st'
| step_poll task_id st r st' :
    get_task_result task_id st = (r, st') → step st st'
| step_worker_begin st st' :
    worker_begin st = Some st' → step st st'
| step_worker_end i st st' :
    worker_end i st = Some st' → step st st'
| step_redis b st :
    step st (set_redis_up b st).

Definition reachable (st : system) : Prop := rtc step init st.

End App.

Arguments reachable : clear implicits.
Arguments step : clear implicits.

Open Scope list_scope.

(** * Vocabulary of the properties *)

(** ** Readers of a response *)

(** The entry [key] of the [data] object of a response. *)
Definition field (key : string) (r : response) : option pyval :=
  match data r with
  | PDict d => d !! key
  | _ => None
  end.

(** A poll of [task_id] in [st] answers with status [s]. *)
Definition observes (py_str : pyval → string) (st : system) (task_id s : string) : Prop :=
  ∃ r st', get_task_result py_str task_id st = (Return r, st')
           ∧ field "status" r = Some (PStr s).

(** The lifecycle of a task as the status query shows it. *)
Inductive lifecycle : string → string → Prop :=
| lifecycle_dequeued : lifecycle "pending" "processing"
| lifecycle_succeeded : lifecycle "processing" "completed"
| lifecycle_failed : lifecycle "processing" "failed".

(** What [get_task_result] prints for a stored state. *)
Definition render_state (state : string) : string :=
  if String.eqb state "PENDING" then "pending"
  else if String.eqb state "PROCESSING" then "processing"
  else if String.eqb state "SUCCESS" then "completed"
  else "failed".

Definition pending_meta : meta := Meta "PENDING" (InfoVal PNone).
Definition processing_meta : meta := Meta "PROCESSING" (InfoVal PNone).

Definition state_of (st : system) (task_id : string) : string :=
  m_state (default pending_meta (backend st !! task_id)).

(** ** The footprint of a step, and the invariants *)

Section Vocabulary.

Variable uuid : nat → string.

(** The footprint of one step: everything a step can do to the queue, the
    running tasks, the backend and the id supply. *)
Inductive effect : system → system → Prop :=
| effect_frame c b n st :
    effect st (set_calls c (set_redis_up b (set_next_uuid (n + next_uuid st) st)))
| effect_enqueue t text st :
    effect st
      (set_queue (queue st ++ [TaskMessage (uuid (next_uuid st)) t text])
         (set_next_uuid (S (next_uuid st)) st))
| effect_begin m q st :
    queue st = m :: q →
    effect st
      (set_running (running st ++ [m])
         (set_backend (<[msg_id m := processing_meta]> (backend st))
            (set_queue q st)))
| effect_end i m e st :
    running st !! i = Some m →
    effect st (mark_as_failure (msg_id m) e (set_running (delete i (running st)) st)).

(** [task_id] was drawn from the supply by an earlier submission. *)
Definition issued (st : system) (task_id : string) : Prop :=
  ∃ k, (k < next_uuid st)%nat ∧ task_id = uuid k.

(** What the workers have written: a task in progress or a failure. *)
Definition written (m : meta) : Prop :=
  m = processing_meta ∨ ∃ e, m = Meta "FAILURE" (InfoExc e).

Record store_inv (st : system) : Prop := StoreInv {
  si_messages : ∀ m, m ∈ queue st ++ running st → issued st (msg_id m);
  si_keys : ∀ task_id m, backend st !! task_id = Some m → issued st task_id;
  si_metas : ∀ task_id m, backend st !! task_id = Some m → written m
}.

Record queue_inv (st : system) : Prop := QueueInv {
  qi_nodup : NoDup (msg_id <$> (queue st ++ running st));
  qi_queue : ∀ m, m ∈ queue st → backend st !! msg_id m = None;
  qi_running : ∀ m, m ∈ running st → backend st !! msg_id m = Some processing_meta
}.

End Vocabulary.

(** The view each task body calls when it wakes up. *)
Definition view_name (t : celery_task) : string :=
  match t with
  | task_trans_zh_to_en_async => "trans_zh_to_en"
  | task_trans_en_to_zh_async => "trans_en_to_zh"
  | task_summarize_async => "summarize"
  end.

(** The Celery task behind each known task type. *)
Definition known_task_types : list (string * celery_task) :=
  [ ("zh_to_en", task_trans_zh_to_en_async);
    ("en_to_zh", task_trans_en_to_zh_async);
    ("summarize", task_summarize_async) ].


(** ** Sample collaborators, for concrete runs *)

Definition sample_transform (k : kind) (text : pyval) : result pyval :=
  match k with
  | TranslateZhToEn => Return (PStr "hello")
  | TranslateEnToZh => Return (PStr "你好")
  | Summarize => Return text
  end.

Definition sample_uuid (n : nat) : string := "task-" +:+ pretty n.

Definition sample_str (v : pyval) : string :=
  match v with
  | PNone => "None"
  | PBool true => "True"
  | PBool false => "False"
  | PInt z => pretty z
  | PStr s => s
  | PList _ => "[...]"
  | PDict _ => "{...}"
  end.

(** The request [POST ... {"text": s}]. *)
Definition text_request (s : string) : request :=
  Request (Return (PDict {[ "text" := PStr s ]})).

(** One task submitted; taken by a worker; run to its end. *)
Definition sample_submitted : system :=
  snd (async_zh_to_en_translation sample_uuid (text_request "你好") init).
Definition sample_processing : system :=
  default init (worker_begin sample_transform sample_submitted).
Definition sample_finished : system :=
  default init (worker_end sample_transform 0 sample_processing).

Definition sample_step : relation system :=
  step sample_transform sample_uuid sample_str.
Definition sample_reachable : system → Prop :=
  reachable sample_transform sample_uuid sample_str.

Definition sample_failed_response : response :=
  Response 200 200 "成功"
    (PDict {[ "status" := PStr "failed";
              "result" := PNone;
              "error" := PStr "trans_zh_to_en() takes 0 positional arguments but 1 was given" ]}).

(** ** Vocabulary of the further properties *)

(** The text a view reads from a JSON object body: [data.get('text', '')]. *)
Definition text_of (d : gmap string pyval) : pyval :=
  default (PStr "") (d !! "text").

(** The envelope of every answer: the HTTP status repeats the code, the
    code is 200, 400 or 500, and [data] is null unless the code is 200. *)
Definition envelope_ok (r : response) : Prop :=
  http_status r = code r
  ∧ (code r = 200 ∨ code r = 400 ∨ code r = 500)%Z
  ∧ (code r ≠ 200%Z → data r = PNone).

(** The Celery task [create_async_task] starts for a task type, if any. *)
Definition task_of_type (task_type : string) : option celery_task :=
  if String.eqb task_type "zh_to_en" then Some task_trans_zh_to_en_async
  else if String.eqb task_type "en_to_zh" then Some task_trans_en_to_zh_async
  else if String.eqb task_type "summarize" then Some task_summarize_async
  else None.

(** The record a worker stores when task [t] has run. *)
Definition failure_meta (t : celery_task) : meta :=
  Meta "FAILURE" (InfoExc (arity_error (view_name t) 0 1)).

(** The answer of the status query for a task that has run. *)
Definition failed_response (t : celery_task) : response :=
  Response 200 200 "成功"
    (PDict {[ "status" := PStr "failed";
              "result" := PNone;
              "error" := PStr (exn_msg (arity_error (view_name t) 0 1)) ]}).

(** The text service is asked for a translation into Chinese or for a
    summary, of a truthy text. *)
Definition call_ok (c : kind * pyval) : Prop :=
  (c.1 = TranslateEnToZh ∨ c.1 = Summarize) ∧ truthy c.2 = true.

(** The sample deployment with Redis down, and a request without JSON. *)
Definition sample_down : system := set_redis_up false sample_submitted.
Definition sample_bad_json : exn :=
  Exn "BadRequest" "400 Bad Request: Failed to decode JSON object".
Definition bad_request : request := Request (Raise sample_bad_json).

(** A text service that is down. *)
Definition sample_timeout : exn := Exn "TimeoutError" "model timed out".
Definition failing_transform (k : kind) (text : pyval) : result pyval :=
  Raise sample_timeout.

(** The state a synchronous view may leave behind [st]: the deployment as
    it was, with at most one well-formed call more in the log. *)
Definition sync_frame (st st' : system) : Prop :=
  queue st' = queue st ∧ running st' = running st ∧ backend st' = backend st
  ∧ next_uuid st' = next_uuid st ∧ redis_up st' = redis_up st
  ∧ (calls st' = calls st ∨ ∃ c, call_ok c ∧ calls st' = calls st ++ [c]).

(** The exception a view meets while it reads the text of a request:
    raised by [request.get_json()], or by [data.get] on a body that is not
    an object. *)
Definition body_error (req : request) : option exn :=
  match get_json req with
  | Raise e => Some e
  | Return data =>
      match py_get data "text" (PStr "") with
      | Raise e => Some e
      | Return _ => None
      end
  end.

(** The view [m], run in [st], returns a response, and it satisfies [P]. *)
Definition answers (m : M response) (st : system) (P : response → Prop) : Prop :=
  ∃ r, fst (m st) = Return r ∧ P r.

(** What an asynchronous route does to the queue: nothing, or it appends
    one message for its own task [t], under the next id of the supply. *)
Definition enqueues_only (uuid : nat → string) (t : celery_task)
    (st st' : system) : Prop :=
  queue st' = queue st
  ∨ ∃ text, queue st' = queue st ++ [TaskMessage (uuid (next_uuid st)) t text].

(** The answers of the status query for a task that waits and for a task
    that a worker has taken. *)
Definition pending_response : response :=
  Response 200 200 "成功"
    (PDict {[ "status" := PStr "pending"; "result" := PNone ]}).
Definition processing_response : response :=
  Response 200 200 "成功"
    (PDict {[ "status" := PStr "processing"; "result" := PNone ]}).

(** A result store in which a task was revoked by hand. *)
Definition sample_revoked : system :=
  set_backend {[ "task-7" := Meta "REVOKED" (InfoVal PNone) ]} init.

(** The deployment after one synchronous translation, and the message of
    the sample task. *)
Definition sample_translated : system :=
  snd (trans_en_to_zh sample_transform (text_request "hello") init).
Definition sample_message : task_message :=
  TaskMessage "task-0" task_trans_zh_to_en_async (PStr "你好").

(** ** Vocabulary of the corrected claims *)

(** The text of a request is empty or absent: the body is a JSON object in
    which [text] is missing or the empty string, or there is no JSON
    object to read a text from (no JSON at all, or JSON that is not an
    object). *)
Definition text_empty_or_absent (req : request) : Prop :=
  match get_json req with
  | Return (PDict d) => d !! "text" = None ∨ d !! "text" = Some (PStr "")
  | _ => True
  end.

(** What [create_async_task] answers to such a request. *)
Definition empty_text_response (req : request) : response :=
  match get_json req with
  | Return (PDict _) => Response 400 400 "请输入文本" PNone
  | _ => Response 500 500 "服务暂时不可用" PNone
  end.

(** A request whose body is the JSON value [null]. *)
Definition null_request : request := Request (Return PNone).


(** * Properties *)

(** ** Tactics for running the monad *)

Ltac unfold_M :=
  cbv beta iota delta
    [try_except bind lift ret raise call_service trs_translate_en_to_zh
     trs_summarize AsyncResult_info AsyncResult_state AsyncResult_result
     get_task_meta delay update_state] in *.

Ltac run_M := unfold_M; repeat (case_match; simplify_eq/=); eauto.

(** ** What each operation does to the deployment *)

Section Effects.

Variable transform : kind → pyval → result pyval.
Variable uuid : nat → string.
Variable py_str : pyval → string.

Lemma effect_id st : effect uuid st st.
Proof.
  pose proof (effect_frame uuid (calls st) (redis_up st) 0 st) as H.
  by destruct st.
Qed.

Lemma effect_calls c st : effect uuid st (set_calls c st).
Proof.
  pose proof (effect_frame uuid c (redis_up st) 0 st) as H.
  by destruct st.
Qed.

Lemma effect_redis b st : effect uuid st (set_redis_up b st).
Proof.
  pose proof (effect_frame uuid (calls st) b 0 st) as H.
  by destruct st.
Qed.

Lemma effect_draw st : effect uuid st (set_next_uuid (S (next_uuid st)) st).
Proof.
  pose proof (effect_frame uuid (calls st) (redis_up st) 1 st) as H.
  by destruct st.
Qed.

Local Hint Resolve effect_id effect_calls effect_redis effect_draw : core.

Lemma trans_zh_to_en_effect req st r st' :
  trans_zh_to_en transform req st = (r, st') → effect uuid st st'.
Proof. unfold trans_zh_to_en. intros H. run_M. Qed.

Lemma trans_en_to_zh_effect req st r st' :
  trans_en_to_zh transform req st = (r, st') → effect uuid st st'.
Proof. unfold trans_en_to_zh. intros H. run_M. Qed.

Lemma summarize_effect req st r st' :
  summarize transform req st = (r, st') → effect uuid st st'.
Proof. unfold summarize. intros H. run_M. Qed.

Lemma get_task_result_state task_id st :
  snd (get_task_result py_str task_id st) = st.
Proof. unfold get_task_result. destruct (redis_up st) eqn:?; run_M. Qed.

Lemma get_task_result_effect task_id st r st' :
  get_task_result py_str task_id st = (r, st') → effect uuid st st'.
Proof.
  intros H. pose proof (get_task_result_state task_id st) as Hs.
  rewrite H in Hs. simpl in Hs. subst. apply effect_id.
Qed.

Lemma create_async_task_effect task_type req st r st' :
  create_async_task uuid task_type req st = (r, st') → effect uuid st st'.
Proof.
  unfold create_async_task. intros H.
  destruct (redis_up st) eqn:?; run_M; apply effect_enqueue.
Qed.

Lemma after_sleep_raises m st :
  after_sleep (run transform m) st = (Raise (arity_error (view_name (msg_task m)) 0 1), st).
Proof. unfold run. by destruct (msg_task m). Qed.

Lemma before_sleep_run m st :
  before_sleep (run transform m) st = update_state (msg_id m) "PROCESSING" st.
Proof. unfold run. by destruct (msg_task m). Qed.

Lemma worker_begin_inv st st' :
  worker_begin transform st = Some st' →
  redis_up st = true ∧
  ∃ m q, queue st = m :: q ∧
    st' = set_running (running st ++ [m])
            (set_backend (<[msg_id m := processing_meta]> (backend st))
               (set_queue q st)).
Proof.
  unfold worker_begin. intros H.
  destruct (redis_up st) eqn:Hup; [|done].
  destruct (queue st) as [|m q] eqn:Hq; [done|].
  rewrite before_sleep_run in H. unfold update_state in H. simpl in H.
  rewrite Hup in H. simplify_eq. eauto.
Qed.

Lemma worker_end_inv i st st' :
  worker_end transform i st = Some st' →
  redis_up st = true ∧
  ∃ m, running st !! i = Some m ∧
    st' = mark_as_failure (msg_id m) (arity_error (view_name (msg_task m)) 0 1)
            (set_running (delete i (running st)) st).
Proof.
  unfold worker_end. intros H.
  destruct (redis_up st) eqn:Hup; [|done].
  destruct (running st !! i) as [m|] eqn:Hm; [|done].
  rewrite after_sleep_raises in H. simplify_eq. eauto.
Qed.

Lemma step_effect st st' : step transform uuid py_str st st' → effect uuid st st'.
Proof.
  destruct 1 as [req st r st' H|req st r st' H|req st r st' H
                |ty req st r st' H|task_id st r st' H|st st' H|i st st' H|b st].
  - eapply trans_zh_to_en_effect, H.
  - eapply trans_en_to_zh_effect, H.
  - eapply summarize_effect, H.
  - eapply create_async_task_effect, H.
  - eapply get_task_result_effect, H.
  - apply worker_begin_inv in H as (_ & m & q & Hq & ->). by apply effect_begin.
  - apply worker_end_inv in H as (_ & m & Hm & ->). by apply effect_end.
  - apply effect_redis.
Qed.

End Effects.

(** ** Invariants of the reachable deployments *)

Section Invariants.

Variable transform : kind → pyval → result pyval.
Variable uuid : nat → string.
Variable py_str : pyval → string.

Lemma issued_mono st st' task_id :
  (next_uuid st ≤ next_uuid st')%nat → issued uuid st task_id → issued uuid st' task_id.
Proof. intros Hle (k & Hk & ->). exists k. split; [lia|done]. Qed.

Lemma elem_of_delete_middle {A} (l : list A) i x y :
  l !! i = Some x → y ∈ delete i l → y ∈ l.
Proof.
  intros Hi Hy. rewrite <- (take_drop_middle l i x Hi).
  rewrite delete_take_drop in Hy. apply elem_of_app in Hy as [Hy|Hy].
  - apply elem_of_app. by left.
  - apply elem_of_app. right. by apply elem_of_cons; right.
Qed.

Lemma store_inv_init : store_inv uuid init.
Proof. split; simpl; [by intros m ?%elem_of_nil|done|done]. Qed.

Lemma store_inv_effect st st' :
  effect uuid st st' → store_inv uuid st → store_inv uuid st'.
Proof.
  intros Heff [Hm Hk Hw]. destruct Heff as [c b n st|t text st|m q st Hq|i m e st Hi].
  - split; simpl; intros.
    + eapply issued_mono, Hm; [simpl; lia|done].
    + eapply issued_mono, Hk; [simpl; lia|done].
    + eauto.
  - split; simpl; intros.
    + rewrite !elem_of_app, list_elem_of_singleton in H.
      destruct H as [[H| ->]|H].
      * eapply issued_mono, Hm; [simpl; lia|]. apply elem_of_app. by left.
      * exists (next_uuid st). simpl. split; [lia|done].
      * eapply issued_mono, Hm; [simpl; lia|]. apply elem_of_app. by right.
    + eapply issued_mono, Hk; [simpl; lia|done].
    + eauto.
  - assert (Hmi : issued uuid st (msg_id m)).
    { apply Hm. rewrite Hq. apply elem_of_app. left. apply elem_of_cons. by left. }
    split; simpl.
    + intros m' H. apply Hm. rewrite Hq.
      rewrite !elem_of_app, list_elem_of_singleton in H.
      rewrite elem_of_app, elem_of_cons. destruct H as [?|[?| ->]]; auto.
    + intros id m' H. apply lookup_insert_Some in H as [[<- _]|[_ H]]; [done|].
      eapply Hk, H.
    + intros id m' H. apply lookup_insert_Some in H as [[_ <-]|[_ H]]; [by left|].
      eapply Hw, H.
  - assert (Hmi : issued uuid st (msg_id m)).
    { apply Hm, elem_of_app. right. eapply list_elem_of_lookup_2, Hi. }
    split; simpl.
    + intros m' H. apply Hm. apply elem_of_app in H as [H|H]; [apply elem_of_app; by left|].
      apply elem_of_app. right. eapply elem_of_delete_middle; eauto.
    + intros id m' H. apply lookup_insert_Some in H as [[<- _]|[_ H]]; [done|].
      eapply Hk, H.
    + intros id m' H. apply lookup_insert_Some in H as [[_ <-]|[_ H]]; [right; eauto|].
      eapply Hw, H.
Qed.

Lemma store_inv_reachable st :
  reachable transform uuid py_str st → store_inv uuid st.
Proof.
  unfold reachable. revert st.
  apply rtc_ind_r; [apply store_inv_init|].
  intros st st' _ Hstep IH.
  eapply store_inv_effect, IH. eapply step_effect, Hstep.
Qed.

(** From here on the supply never repeats an id. *)
Hypothesis uuid_inj : Inj (=) (=) uuid.

Lemma fresh_not_issued st : ¬ issued uuid st (uuid (next_uuid st)).
Proof. intros (k & Hk & Heq). apply uuid_inj in Heq. lia. Qed.

Lemma queue_inv_init : queue_inv init.
Proof. split; simpl; [constructor|by intros m ?%elem_of_nil..]. Qed.

Lemma NoDup_fmap_delete_ne {A B} (f : A → B) (l : list A) i x y :
  NoDup (f <$> l) → l !! i = Some x → y ∈ delete i l → f y ≠ f x.
Proof.
  intros Hnd Hi Hy Heq.
  rewrite <- (take_drop_middle l i x Hi), fmap_app, fmap_cons in Hnd.
  apply NoDup_app in Hnd as (_ & Hl & Hr). apply NoDup_cons in Hr as [Hr _].
  rewrite delete_take_drop in Hy. apply elem_of_app in Hy as [Hy|Hy].
  - apply (Hl (f y)); [by apply list_elem_of_fmap_2|].
    rewrite Heq. apply elem_of_cons. by left.
  - apply Hr. rewrite <- Heq. by apply list_elem_of_fmap_2.
Qed.

Lemma queue_inv_effect st st' :
  effect uuid st st' → store_inv uuid st → queue_inv st → queue_inv st'.
Proof.
  intros Heff [Hm Hk Hw] [Hnd Hq Hr].
  destruct Heff as [c b n st|t text st|m q st Hqueue|i m e st Hi].
  - by split.
  - split; simpl.
    + rewrite <- (assoc_L (++)), fmap_app. simpl. rewrite fmap_app in Hnd.
      apply NoDup_app in Hnd as (Hn1 & Hn2 & Hn3).
      assert (Hfresh : ∀ l : list task_message, (∀ m, m ∈ l → issued uuid st (msg_id m)) →
                uuid (next_uuid st) ∉ msg_id <$> l).
      { intros l Hl (m & Heq & Hin)%list_elem_of_fmap.
        apply (fresh_not_issued st). rewrite Heq. by apply Hl. }
      apply NoDup_app. split_and!; [done| |].
      * intros x Hx Hx'.
        apply elem_of_cons in Hx' as [->|Hx']; [|by eapply Hn2].
        revert Hx. apply Hfresh. intros m ?. apply Hm, elem_of_app. by left.
      * apply NoDup_cons. split; [|done].
        apply Hfresh. intros m ?. apply Hm, elem_of_app. by right.
    + intros m [H| ->%list_elem_of_singleton]%elem_of_app; [by apply Hq|].
      simpl. destruct (backend st !! uuid (next_uuid st)) eqn:Hb; [|done].
      by apply Hk, fresh_not_issued in Hb.
    + done.
  - rewrite Hqueue in Hnd, Hq.
    assert (Hperm : (m :: q) ++ running st ≡ₚ q ++ running st ++ [m]).
    { rewrite (assoc_L (++)). simpl. by rewrite <- Permutation_cons_append. }
    rewrite Hperm in Hnd.
    split; simpl.
    + done.
    + intros m' Hm'. rewrite lookup_insert_ne; [apply Hq, elem_of_cons; by right|].
      simpl in Hnd. rewrite fmap_app, fmap_app in Hnd.
      apply NoDup_app in Hnd as (_ & Hn2 & _). intros Heq.
      apply (Hn2 (msg_id m')); [by apply list_elem_of_fmap_2|].
      apply elem_of_app. right. rewrite <- Heq. apply list_elem_of_singleton. done.
    + intros m' Hm'. destruct (decide (msg_id m = msg_id m')) as [<-|Hne].
      * by rewrite lookup_insert_eq.
      * rewrite lookup_insert_ne by done. apply Hr.
        apply elem_of_app in Hm' as [?| ->%list_elem_of_singleton]; done.
  - assert (Hsub : NoDup (msg_id <$> queue st ++ delete i (running st))).
    { rewrite fmap_app in Hnd |- *. apply NoDup_app in Hnd as (Hn1 & Hn2 & Hn3).
      apply NoDup_app. split_and!; [done| |].
      - intros x Hx (m' & -> & Hm')%list_elem_of_fmap. apply (Hn2 _ Hx).
        apply list_elem_of_fmap_2. eapply elem_of_delete_middle; eauto.
      - rewrite delete_take_drop, fmap_app.
        rewrite <- (take_drop_middle _ i m Hi), fmap_app, fmap_cons in Hn3.
        apply NoDup_app in Hn3 as (Ha & Hb & Hc). apply NoDup_cons in Hc as [Hc1 Hc2].
        apply NoDup_app. split_and!; [done| |done].
        intros x Hx Hx'. apply (Hb x Hx). apply elem_of_cons. by right. }
    split; simpl.
    + done.
    + intros m' Hm'. rewrite lookup_insert_ne; [by apply Hq|].
      rewrite fmap_app in Hnd. apply NoDup_app in Hnd as (_ & Hn2 & _).
      intros Heq. apply (Hn2 (msg_id m')); [by apply list_elem_of_fmap_2|].
      rewrite <- Heq. apply list_elem_of_fmap_2. eapply list_elem_of_lookup_2, Hi.
    + intros m' Hm'. rewrite lookup_insert_ne.
      * apply Hr. eapply elem_of_delete_middle; eauto.
      * rewrite fmap_app in Hnd. apply NoDup_app in Hnd as (_ & _ & Hn3).
        intros Heq. by eapply (NoDup_fmap_delete_ne msg_id (running st) i m m').
Qed.

Lemma queue_inv_reachable st :
  reachable transform uuid py_str st → queue_inv st.
Proof.
  unfold reachable. revert st.
  apply rtc_ind_r; [apply queue_inv_init|].
  intros st st' Hrtc Hstep IH.
  eapply queue_inv_effect, IH; [eapply step_effect, Hstep|].
  by apply store_inv_reachable.
Qed.

End Invariants.

(** ** Running the operations forward *)

Section Forward.

Variable transform : kind → pyval → result pyval.
Variable uuid : nat → string.
Variable py_str : pyval → string.

Lemma worker_begin_run st m q :
  redis_up st = true → queue st = m :: q →
  worker_begin transform st =
    Some (set_running (running st ++ [m])
            (set_backend (<[msg_id m := processing_meta]> (backend st))
               (set_queue q st))).
Proof.
  intros Hup Hq. unfold worker_begin. rewrite Hup, Hq, before_sleep_run.
  unfold update_state. simpl. by rewrite Hup.
Qed.

Lemma worker_end_run st i m :
  redis_up st = true → running st !! i = Some m →
  worker_end transform i st =
    Some (mark_as_failure (msg_id m) (arity_error (view_name (msg_task m)) 0 1)
            (set_running (delete i (running st)) st)).
Proof.
  intros Hup Hi. unfold worker_end. by rewrite Hup, Hi, after_sleep_raises.
Qed.

(** The answer of the status query, by what the backend holds. *)
Lemma get_task_result_down task_id st :
  redis_up st = false →
  get_task_result py_str task_id st =
    (Return (Response 500 500 "获取任务结果失败" PNone), st).
Proof. intros Hup. unfold get_task_result. unfold_M. by rewrite Hup. Qed.

Lemma get_task_result_pending task_id st :
  redis_up st = true → backend st !! task_id = None →
  get_task_result py_str task_id st =
    (Return (Response 200 200 "成功"
               (PDict {[ "status" := PStr "pending"; "result" := PNone ]})), st).
Proof.
  intros Hup Hb. unfold get_task_result. unfold_M.
  rewrite Hup, Hb. simpl. by rewrite ?Hup, ?Hb.
Qed.

Lemma get_task_result_processing task_id st :
  redis_up st = true → backend st !! task_id = Some processing_meta →
  get_task_result py_str task_id st =
    (Return (Response 200 200 "成功"
               (PDict {[ "status" := PStr "processing"; "result" := PNone ]})), st).
Proof.
  intros Hup Hb. unfold get_task_result. unfold_M.
  rewrite Hup, Hb. simpl. by rewrite ?Hup, ?Hb.
Qed.

Lemma get_task_result_failure task_id e st :
  redis_up st = true → backend st !! task_id = Some (Meta "FAILURE" (InfoExc e)) →
  get_task_result py_str task_id st =
    (Return (Response 200 200 "成功"
               (PDict {[ "status" := PStr "failed"; "result" := PNone;
                         "error" := PStr (exn_msg e) ]})), st).
Proof.
  intros Hup Hb. unfold get_task_result. unfold_M.
  rewrite Hup, Hb. simpl. by rewrite ?Hup, ?Hb.
Qed.

(** A poll that shows a status shows the stored state. *)
Lemma observes_state st task_id s :
  observes py_str st task_id s → s = render_state (state_of st task_id).
Proof.
  intros (r & st' & Hr & Hs). unfold state_of, render_state, pending_meta.
  unfold get_task_result in Hr. unfold_M.
  destruct (redis_up st); [|by simplify_eq].
  repeat (case_match; simplify_eq/=); unfold field in Hs; simpl in Hs;
    rewrite lookup_insert_eq in Hs; congruence.
Qed.

End Forward.

(** ** The submission gateway *)

Section Gateway.

Variable transform : kind → pyval → result pyval.
Variable uuid : nat → string.

(** A request whose text is falsy (missing, empty, null, 0, ...) is
    answered 400 before anything else happens. *)
Lemma create_async_task_falsy task_type req d st :
  get_json req = Return (PDict d) →
  truthy (default (PStr "") (d !! "text")) = false →
  create_async_task uuid task_type req st
  = (Return (Response 400 400 "请输入文本" PNone), st).
Proof.
  intros Hjson Htext. unfold create_async_task. unfold_M.
  rewrite Hjson. simpl. by rewrite Htext.
Qed.

(** C4, as the code has it.  A submission whose text is empty or absent
    leaves the deployment as it was: nothing is enqueued, the result store
    is unchanged and no task id is drawn from the supply.  The answer is
    400 "请输入文本" when the body is a JSON object in which [text] is
    missing or the empty string, and 500 "服务暂时不可用" when the text is
    absent because [get_json] raises or the body is not a JSON object. *)
Theorem create_async_task_empty_or_absent_text task_type req st :
  text_empty_or_absent req →
  create_async_task uuid task_type req st
  = (Return (empty_text_response req), st).
Proof.
  unfold text_empty_or_absent, empty_text_response. intros Htext.
  destruct (get_json req) as [data|e] eqn:Hjson.
  - destruct data;
      try (unfold create_async_task; unfold_M; by rewrite Hjson).
    eapply create_async_task_falsy; [done|]. by destruct Htext as [-> | ->].
  - unfold create_async_task. unfold_M. by rewrite Hjson.
Qed.

(** C6.  A submission of a known kind with a non-empty text, while the
    broker is reachable, is answered at once with code 200 and a [data]
    object made of the fresh task id, status "pending" and the result URL
    ["/api/task/" + task_id]; the only effect is that the task message is
    appended to the queue: no task has been run, the result store and the
    running tasks are as before. *)
Theorem create_async_task_returns_pending task_type t req d text st :
  (task_type, t) ∈ known_task_types →
  get_json req = Return (PDict d) →
  d !! "text" = Some text →
  truthy text = true →
  redis_up st = true →
  create_async_task uuid task_type req st
  = (Return (Response 200 200 "任务已提交"
               (PDict {[ "task_id" := PStr (uuid (next_uuid st));
                         "status" := PStr "pending";
                         "result_url" :=
                           PStr ("/api/task/" +:+ uuid (next_uuid st)) ]})),
     set_queue (queue st ++ [TaskMessage (uuid (next_uuid st)) t text])
       (set_next_uuid (S (next_uuid st)) st)).
Proof.
  intros Hty Hjson Hd Htext Hup. unfold create_async_task. unfold_M.
  rewrite Hjson. simpl. rewrite Hd. simpl. rewrite Htext. simpl.
  unfold known_task_types in Hty.
  rewrite !elem_of_cons in Hty.
  destruct Hty as [?|[?|[?|?%elem_of_nil]]]; [simplify_eq; simpl; by rewrite Hup..|done].
Qed.

(** C10.  For a task type other than the three known ones,
    [create_async_task] answers without touching the deployment, whatever
    the request: nothing is enqueued and no id is drawn.  On a JSON object
    body the answer is 400: "请输入文本" on a falsy text, "未知任务类型"
    otherwise. *)
Theorem create_async_task_unknown_type task_type req st :
  task_type ≠ "zh_to_en" → task_type ≠ "en_to_zh" → task_type ≠ "summarize" →
  ∃ r, create_async_task uuid task_type req st = (Return r, st)
       ∧ ∀ d, get_json req = Return (PDict d) → http_status r = 400%Z ∧ code r = 400%Z.
Proof.
  intros H1%String.eqb_neq H2%String.eqb_neq H3%String.eqb_neq.
  unfold create_async_task. unfold_M. rewrite H1, H2, H3.
  destruct (get_json req) as [data|e]; simpl; [|by eexists].
  destruct data; simpl; try by eexists.
  destruct (truthy _); simpl; by eexists.
Qed.

(** Messages are only ever published for the three registered tasks, each
    under the task type that names it. *)
Lemma create_async_task_enqueues task_type req st r st' :
  create_async_task uuid task_type req st = (r, st') →
  queue st' = queue st
  ∨ ∃ t text, (task_type, t) ∈ known_task_types
      ∧ queue st' = queue st ++ [TaskMessage (uuid (next_uuid st)) t text].
Proof.
  unfold create_async_task, known_task_types. intros H.
  destruct (redis_up st) eqn:?; run_M; right; do 2 eexists; split; try done.
  - rewrite String.eqb_eq in *. subst. apply elem_of_cons. by left.
  - rewrite String.eqb_eq in *. subst. do 1 (apply elem_of_cons; right).
    apply elem_of_cons. by left.
  - rewrite String.eqb_eq in *. subst. do 2 (apply elem_of_cons; right).
    apply elem_of_cons. by left.
Qed.

End Gateway.

(** ** The synchronous views *)

Section Views.

Variable transform : kind → pyval → result pyval.

(** What [trans_en_to_zh] does on a request with a truthy text. *)
Lemma trans_en_to_zh_run req d text st :
  get_json req = Return (PDict d) →
  d !! "text" = Some text →
  truthy text = true →
  trans_en_to_zh transform req st
  = (Return
       match transform TranslateEnToZh text with
       | Return translated =>
           Response 200 200 "翻译成功"
             (PDict {[ "original" := text; "translated" := translated ]})
       | Raise e => Response 500 500 ("服务器出错," +:+ exn_msg e) PNone
       end,
     set_calls (calls st ++ [(TranslateEnToZh, text)]) st).
Proof.
  intros Hjson Hd Htext. unfold trans_en_to_zh. unfold_M.
  rewrite Hjson. simpl. rewrite Hd. simpl. rewrite Htext. simpl.
  by destruct (transform _ _).
Qed.

(** What [trans_zh_to_en] does on a request with a truthy text. *)
Lemma trans_zh_to_en_run req d text st :
  get_json req = Return (PDict d) →
  d !! "text" = Some text →
  truthy text = true →
  trans_zh_to_en transform req st
  = (Return
       match transform TranslateEnToZh text with
       | Return translated =>
           Response 200 200 "翻译成功"
             (PDict {[ "original" := text; "translated" := translated ]})
       | Raise e => Response 500 500 ("服务器出错," +:+ exn_msg e) PNone
       end,
     set_calls (calls st ++ [(TranslateEnToZh, text)]) st).
Proof.
  intros Hjson Hd Htext. unfold trans_zh_to_en. unfold_M.
  rewrite Hjson. simpl. rewrite Hd. simpl. rewrite Htext. simpl.
  by destruct (transform _ _).
Qed.

(** C9.  On a request with a non-empty text the views [trans_zh_to_en] and
    [trans_en_to_zh] do the same: both call [trs.translate_en_to_zh] on the
    text, and they return the same response (hence the same [translated])
    and leave the same state. *)
Theorem trans_zh_to_en_eq_trans_en_to_zh req d text st :
  get_json req = Return (PDict d) →
  d !! "text" = Some text →
  truthy text = true →
  trans_zh_to_en transform req st = trans_en_to_zh transform req st
  ∧ calls (snd (trans_zh_to_en transform req st))
    = calls st ++ [(TranslateEnToZh, text)]
  ∧ calls (snd (trans_en_to_zh transform req st))
    = calls st ++ [(TranslateEnToZh, text)].
Proof.
  intros Hjson Hd Htext.
  by rewrite (trans_zh_to_en_run req d text st),
    (trans_en_to_zh_run req d text st).
Qed.

(** C2 (the code departs from the claim).  The synchronous 中译英 view,
    asked to translate "你好", calls the text service once, and for the
    English-to-Chinese capability: line 83 is the call of line 117,
    [trs.translate_en_to_zh(text)], in the view documented as 中译英. *)
Theorem trans_zh_to_en_calls_en_to_zh :
  calls (snd (trans_zh_to_en transform (text_request "你好") init))
  = [(TranslateEnToZh, PStr "你好")].
Proof.
  by rewrite (trans_zh_to_en_run (text_request "你好")
                {[ "text" := PStr "你好" ]} (PStr "你好") init).
Qed.

End Views.

(** ** The status query *)

Section StatusQuery.

Variable transform : kind → pyval → result pyval.
Variable uuid : nat → string.
Variable py_str : pyval → string.

(** C8.  The status query leaves the deployment, and with it the result
    store and every task record, as it found it; asked again, it gives the
    same answer. *)
Theorem get_task_result_idempotent task_id st :
  snd (get_task_result py_str task_id st) = st
  ∧ get_task_result py_str task_id (snd (get_task_result py_str task_id st))
    = get_task_result py_str task_id st.
Proof.
  pose proof (get_task_result_state py_str task_id st) as H.
  split; [done|]. by rewrite H.
Qed.

(** C3, as the code has it.  In a reachable deployment whose backend
    answers, the status query for a non-empty id that no submission has
    issued answers code 200 with status "pending" and a null result; the
    code has no not-found answer. *)
Theorem get_task_result_unknown_id st task_id :
  reachable transform uuid py_str st →
  redis_up st = true →
  task_id ≠ "" →
  ¬ issued uuid st task_id →
  get_task_result py_str task_id st
  = (Return (Response 200 200 "成功"
               (PDict {[ "status" := PStr "pending"; "result" := PNone ]})), st).
Proof.
  intros Hreach Hup _ Hnew. apply get_task_result_pending; [done|].
  destruct (backend st !! task_id) as [m|] eqn:Hb; [|done].
  destruct Hnew. eapply si_keys; [by eapply store_inv_reachable|done].
Qed.


(** No poll of a reachable deployment ever shows a completed task. *)
Lemma no_task_completes st task_id :
  reachable transform uuid py_str st →
  ¬ observes py_str st task_id "completed".
Proof.
  intros Hreach Hobs%observes_state.
  apply store_inv_reachable in Hreach as [_ _ Hw].
  unfold state_of in Hobs.
  destruct (backend st !! task_id) as [m|] eqn:Hb; [|done].
  by destruct (Hw _ _ Hb) as [->|[e ->]].
Qed.

End StatusQuery.

(** ** The task lifecycle *)

Section Lifecycle.

Variable transform : kind → pyval → result pyval.
Variable uuid : nat → string.
Variable py_str : pyval → string.

(** One step moves the shown status of a task along at most one arrow of
    the lifecycle. *)
Lemma render_state_effect st st' task_id :
  effect uuid st st' → queue_inv st →
  render_state (state_of st' task_id) = render_state (state_of st task_id)
  ∨ lifecycle (render_state (state_of st task_id))
      (render_state (state_of st' task_id)).
Proof.
  intros Heff [_ Hq Hr].
  destruct Heff as [c b n st|t text st|m q st Hqueue|i m e st Hi]; try by left.
  - unfold state_of. simpl.
    destruct (decide (msg_id m = task_id)) as [<-|Hne].
    + right. rewrite lookup_insert_eq, Hq by (rewrite Hqueue; apply elem_of_cons; by left).
      apply lifecycle_dequeued.
    + left. by rewrite lookup_insert_ne.
  - unfold state_of. simpl.
    destruct (decide (msg_id m = task_id)) as [<-|Hne].
    + right. rewrite lookup_insert_eq, (Hr m) by (eapply list_elem_of_lookup_2, Hi).
      apply lifecycle_failed.
    + left. by rewrite lookup_insert_ne.
Qed.

Lemma lifecycle_terminal s s' :
  s = "completed" ∨ s = "failed" → rtc lifecycle s s' → s' = s.
Proof.
  intros Hs Hrtc. destruct Hrtc as [|s y z Hl _]; [done|].
  destruct Hs as [-> | ->]; inversion Hl.
Qed.

Hypothesis uuid_inj : Inj (=) (=) uuid.

Lemma render_state_steps st st' task_id :
  reachable transform uuid py_str st →
  rtc (step transform uuid py_str) st st' →
  rtc lifecycle (render_state (state_of st task_id))
    (render_state (state_of st' task_id)).
Proof.
  intros Hreach Hrtc. induction Hrtc as [|st st1 st' Hstep _ IH]; [done|].
  assert (Hreach1 : reachable transform uuid py_str st1).
  { unfold reachable in *. eapply rtc_r; eauto. }
  specialize (IH Hreach1).
  destruct (render_state_effect st st1 task_id) as [Heq|Hl].
  - eapply (step_effect transform uuid py_str), Hstep.
  - by eapply (queue_inv_reachable transform uuid py_str).
  - by rewrite <- Heq.
  - by eapply rtc_l.
Qed.

(** C7.  Let the id supply never repeat an id, and take two polls of a
    task id that show a status, [s] in a reachable deployment and [s']
    later.  If one step lies between them,
    the status is unchanged or has moved along one arrow of
    pending -> processing -> completed | failed.  After any number of
    steps [s'] is reached from [s] along these arrows, and if [s] is
    completed or failed then [s'] is [s]. *)
Theorem lifecycle_monotone st st' task_id s s' :
  reachable transform uuid py_str st →
  observes py_str st task_id s →
  observes py_str st' task_id s' →
  (step transform uuid py_str st st' → s' = s ∨ lifecycle s s')
  ∧ (rtc (step transform uuid py_str) st st' →
     rtc lifecycle s s' ∧ (s = "completed" ∨ s = "failed" → s' = s)).
Proof.
  intros Hreach Hs%observes_state Hs'%observes_state. subst s s'. split.
  - intros Hstep. eapply render_state_effect.
    + eapply (step_effect transform uuid py_str), Hstep.
    + by eapply (queue_inv_reachable transform uuid py_str).
  - intros Hrtc.
    pose proof (render_state_steps st st' task_id Hreach Hrtc) as Hl.
    split; [done|]. intros Hterm. by apply lifecycle_terminal.
Qed.

End Lifecycle.

(** C1 (the code departs from the claim).  Submit the text "你好" to the
    asynchronous zh_to_en endpoint of a fresh deployment, let a worker take
    the task and run it to its end: whatever the text service would
    answer, the task ends failed.  The task body calls the view
    [trans_zh_to_en], declared without parameters, with the text as
    argument; the call raises a TypeError before the text service is
    reached, and the poll shows the failure. *)
Theorem zh_to_en_task_fails transform uuid py_str :
  ∃ r st1 st2 st3,
    async_zh_to_en_translation uuid (text_request "你好") init = (Return r, st1)
    ∧ field "task_id" r = Some (PStr (uuid 0))
    ∧ field "status" r = Some (PStr "pending")
    ∧ worker_begin transform st1 = Some st2
    ∧ worker_end transform 0 st2 = Some st3
    ∧ queue st3 = [] ∧ running st3 = [] ∧ calls st3 = []
    ∧ get_task_result py_str (uuid 0) st3
      = (Return (Response 200 200 "成功"
                   (PDict {[ "status" := PStr "failed";
                             "result" := PNone;
                             "error" := PStr "trans_zh_to_en() takes 0 positional arguments but 1 was given" ]})),
         st3).
Proof.
  do 4 eexists. split_and!.
  - reflexivity.
  - reflexivity.
  - reflexivity.
  - by apply worker_begin_run.
  - by apply worker_end_run.
  - done.
  - done.
  - done.
  - rewrite (get_task_result_failure py_str (uuid 0)
               (arity_error "trans_zh_to_en" 0 1)); [done|done|].
    simpl. by rewrite lookup_insert_eq.
Qed.

(** ** Concrete runs *)

Lemma sample_uuid_inj : Inj (=) (=) sample_uuid.
Proof.
  intros a b H. unfold sample_uuid in H.
  apply (inj (String.app "task-")) in H. by apply (inj pretty) in H.
Qed.

Lemma sample_submitted_step : sample_step init sample_submitted.
Proof. by eapply (step_submit _ _ _ "zh_to_en" (text_request "你好")). Defined.

Lemma sample_processing_step : sample_step sample_submitted sample_processing.
Proof. by apply step_worker_begin. Defined.

Lemma sample_finished_step : sample_step sample_processing sample_finished.
Proof. by apply (step_worker_end _ _ _ 0). Defined.

Lemma sample_submitted_reachable : sample_reachable sample_submitted.
Proof. apply rtc_once, sample_submitted_step. Defined.

Lemma sample_processing_reachable : sample_reachable sample_processing.
Proof. eapply rtc_r; [apply sample_submitted_reachable|apply sample_processing_step]. Defined.

Lemma sample_finished_reachable : sample_reachable sample_finished.
Proof. eapply rtc_r; [apply sample_processing_reachable|apply sample_finished_step]. Defined.

Lemma create_async_task_empty_or_absent_text_witness :
  text_empty_or_absent (text_request "")
  ∧ create_async_task sample_uuid "zh_to_en" (text_request "") sample_submitted
    = (Return (Response 400 400 "请输入文本" PNone), sample_submitted).
Proof.
  assert (Htext : text_empty_or_absent (text_request ""))
    by (right; reflexivity).
  split; [exact Htext|].
  apply (create_async_task_empty_or_absent_text sample_uuid "zh_to_en"
           (text_request "") sample_submitted Htext).
Defined.

(** C4, as stated, fails.  A submission whose body is the JSON value
    [null] has no text, and is answered 500, not 400: [data.get] raises on
    [None] and the except branch answers.  Nothing is enqueued. *)
Lemma null_body_submission_is_500 :
  text_empty_or_absent null_request
  ∧ create_async_task sample_uuid "zh_to_en" null_request init
    = (Return (Response 500 500 "服务暂时不可用" PNone), init)
  ∧ http_status (Response 500 500 "服务暂时不可用" PNone) ≠ 400%Z.
Proof. split; [exact I|]. split; [reflexivity|discriminate]. Qed.

Lemma create_async_task_returns_pending_witness :
  ("summarize", task_summarize_async) ∈ known_task_types
  ∧ truthy (PStr "long text") = true
  ∧ redis_up sample_submitted = true
  ∧ create_async_task sample_uuid "summarize" (text_request "long text") sample_submitted
    = (Return (Response 200 200 "任务已提交"
                 (PDict {[ "task_id" := PStr "task-1";
                           "status" := PStr "pending";
                           "result_url" := PStr "/api/task/task-1" ]})),
       set_queue [TaskMessage "task-0" task_trans_zh_to_en_async (PStr "你好");
                  TaskMessage "task-1" task_summarize_async (PStr "long text")]
         (set_next_uuid 2 sample_submitted)).
Proof.
  assert (Hty : ("summarize", task_summarize_async) ∈ known_task_types).
  { unfold known_task_types. do 2 (apply elem_of_cons; right).
    apply elem_of_cons. by left. }
  split_and!; [exact Hty|reflexivity|reflexivity|].
  apply (create_async_task_returns_pending sample_uuid "summarize"
           task_summarize_async (text_request "long text")
           {[ "text" := PStr "long text" ]} (PStr "long text") sample_submitted);
    [exact Hty|reflexivity..].
Defined.

Lemma create_async_task_unknown_type_witness :
  "ja_to_en" ≠ "zh_to_en" ∧ "ja_to_en" ≠ "en_to_zh" ∧ "ja_to_en" ≠ "summarize"
  ∧ ∃ r, create_async_task sample_uuid "ja_to_en" (text_request "你好") sample_submitted
         = (Return r, sample_submitted)
       ∧ ∀ d, get_json (text_request "你好") = Return (PDict d) →
              http_status r = 400%Z ∧ code r = 400%Z.
Proof.
  split_and!; [discriminate..|].
  apply (create_async_task_unknown_type sample_uuid "ja_to_en"
           (text_request "你好") sample_submitted); discriminate.
Defined.

Lemma trans_zh_to_en_eq_trans_en_to_zh_witness :
  truthy (PStr "hello") = true
  ∧ trans_zh_to_en sample_transform (text_request "hello") init
    = trans_en_to_zh sample_transform (text_request "hello") init
  ∧ calls (snd (trans_zh_to_en sample_transform (text_request "hello") init))
    = [] ++ [(TranslateEnToZh, PStr "hello")]
  ∧ calls (snd (trans_en_to_zh sample_transform (text_request "hello") init))
    = [] ++ [(TranslateEnToZh, PStr "hello")].
Proof.
  split; [reflexivity|].
  apply (trans_zh_to_en_eq_trans_en_to_zh sample_transform (text_request "hello")
           {[ "text" := PStr "hello" ]} (PStr "hello") init); reflexivity.
Defined.

Lemma sample_not_issued : ¬ issued sample_uuid sample_submitted "no-such-task".
Proof.
  intros (k & Hk & Heq).
  change (next_uuid sample_submitted) with 1 in Hk.
  destruct k as [|k]; [|lia]. vm_compute in Heq. discriminate Heq.
Defined.

Lemma get_task_result_unknown_id_witness :
  sample_reachable sample_submitted
  ∧ redis_up sample_submitted = true
  ∧ "no-such-task" ≠ ""
  ∧ ¬ issued sample_uuid sample_submitted "no-such-task"
  ∧ get_task_result sample_str "no-such-task" sample_submitted
    = (Return (Response 200 200 "成功"
                 (PDict {[ "status" := PStr "pending"; "result" := PNone ]})),
       sample_submitted).
Proof.
  split_and!;
    [apply sample_submitted_reachable|reflexivity|discriminate
    |apply sample_not_issued|].
  apply (get_task_result_unknown_id sample_transform sample_uuid sample_str);
    [apply sample_submitted_reachable|reflexivity|discriminate
    |apply sample_not_issued].
Defined.

(** C3, as stated, fails.  With one task submitted and waiting, the status
    query for an id that was never issued and the status query for the
    waiting task give the same answer, status "pending": the unknown id is
    not told apart from a pending task. *)
Lemma unknown_task_id_polls_pending :
  sample_reachable sample_submitted
  ∧ ¬ issued sample_uuid sample_submitted "no-such-task"
  ∧ issued sample_uuid sample_submitted "task-0"
  ∧ observes sample_str sample_submitted "no-such-task" "pending"
  ∧ fst (get_task_result sample_str "no-such-task" sample_submitted)
    = fst (get_task_result sample_str "task-0" sample_submitted).
Proof.
  split_and!.
  - apply sample_submitted_reachable.
  - apply sample_not_issued.
  - exists 0. split; [|reflexivity].
    change (next_uuid sample_submitted) with 1. lia.
  - do 2 eexists. split; reflexivity.
  - reflexivity.
Qed.



Lemma sample_observes_processing :
  observes sample_str sample_processing "task-0" "processing".
Proof. do 2 eexists. split; reflexivity. Defined.

Lemma sample_observes_failed :
  observes sample_str sample_finished "task-0" "failed".
Proof. do 2 eexists. split; reflexivity. Defined.

Lemma lifecycle_monotone_witness :
  Inj (=) (=) sample_uuid
  ∧ sample_reachable sample_processing
  ∧ observes sample_str sample_processing "task-0" "processing"
  ∧ observes sample_str sample_finished "task-0" "failed"
  ∧ sample_step sample_processing sample_finished
  ∧ (sample_step sample_processing sample_finished →
     "failed" = "processing" ∨ lifecycle "processing" "failed")
  ∧ (rtc sample_step sample_processing sample_finished →
     rtc lifecycle "processing" "failed"
     ∧ ("processing" = "completed" ∨ "processing" = "failed" →
        "failed" = "processing")).
Proof.
  split_and!;
    [apply sample_uuid_inj|apply sample_processing_reachable
    |apply sample_observes_processing|apply sample_observes_failed
    |apply sample_finished_step|..];
    apply (lifecycle_monotone sample_transform sample_uuid sample_str
             sample_uuid_inj sample_processing sample_finished "task-0"
             "processing" "failed" sample_processing_reachable
             sample_observes_processing sample_observes_failed).
Defined.

(** * Further properties of the views, the tasks and the worker *)

(** ** The synchronous views, case by case *)

Section SyncViews.

Variable transform : kind → pyval → result pyval.

Lemma summarize_run req d text st :
  get_json req = Return (PDict d) →
  d !! "text" = Some text →
  truthy text = true →
  summarize transform req st
  = (Return
       match transform Summarize text with
       | Return summarized =>
           Response 200 200 "总结成功"
             (PDict {[ "original" := text; "summarized" := summarized ]})
       | Raise e => Response 500 500 ("服务器出错," +:+ exn_msg e) PNone
       end,
     set_calls (calls st ++ [(Summarize, text)]) st).
Proof.
  intros Hjson Hd Htext. unfold summarize. unfold_M.
  rewrite Hjson. simpl. rewrite Hd. simpl. rewrite Htext. simpl.
  by destruct (transform _ _).
Qed.

(** A truthy text read with the default is a text that is present. *)
Lemma text_of_truthy d :
  truthy (text_of d) = true → d !! "text" = Some (text_of d).
Proof. unfold text_of. by destruct (d !! "text"). Qed.

(** The state a synchronous view leaves: the state it found, with at most
    one call added to the log. *)
Lemma trans_zh_to_en_state req st :
  snd (trans_zh_to_en transform req st) = st
  ∨ ∃ text, truthy text = true
      ∧ snd (trans_zh_to_en transform req st)
        = set_calls (calls st ++ [(TranslateEnToZh, text)]) st.
Proof.
  unfold trans_zh_to_en. run_M; right; eexists; (split; [|done]);
    by apply negb_false_iff.
Qed.

Lemma trans_en_to_zh_state req st :
  snd (trans_en_to_zh transform req st) = st
  ∨ ∃ text, truthy text = true
      ∧ snd (trans_en_to_zh transform req st)
        = set_calls (calls st ++ [(TranslateEnToZh, text)]) st.
Proof.
  unfold trans_en_to_zh. run_M; right; eexists; (split; [|done]);
    by apply negb_false_iff.
Qed.

Lemma summarize_state req st :
  snd (summarize transform req st) = st
  ∨ ∃ text, truthy text = true
      ∧ snd (summarize transform req st)
        = set_calls (calls st ++ [(Summarize, text)]) st.
Proof.
  unfold summarize. run_M; right; eexists; (split; [|done]);
    by apply negb_false_iff.
Qed.

(** X1.  A synchronous view never touches the queue, the running tasks,
    the result store, the id supply or the Redis flag; all it may leave is
    one more call in the log of the text service, for a translation into
    Chinese or a summary of a truthy text. *)
Theorem sync_views_frame req st :
  sync_frame st (snd (trans_zh_to_en transform req st))
  ∧ sync_frame st (snd (trans_en_to_zh transform req st))
  ∧ sync_frame st (snd (summarize transform req st)).
Proof.
  assert (Hid : sync_frame st st) by (unfold sync_frame; auto 10).
  assert (Hcall : ∀ k text, k = TranslateEnToZh ∨ k = Summarize →
            truthy text = true →
            sync_frame st (set_calls (calls st ++ [(k, text)]) st)).
  { intros k text Hk Ht. unfold sync_frame. simpl. split_and!; try done.
    right. by exists (k, text). }
  split_and!.
  - destruct (trans_zh_to_en_state req st) as [->|(text & Ht & ->)]; auto.
  - destruct (trans_en_to_zh_state req st) as [->|(text & Ht & ->)]; auto.
  - destruct (summarize_state req st) as [->|(text & Ht & ->)]; auto.
Qed.

(** X2.  On a JSON object body whose text is falsy (missing, empty, null,
    0, false, an empty list or object) each synchronous view answers 400
    with its own message, calls no text service and leaves the deployment
    as it was. *)
Theorem sync_views_reject_falsy_text req d st :
  get_json req = Return (PDict d) →
  truthy (text_of d) = false →
  trans_zh_to_en transform req st
  = (Return (Response 400 400 "请输入要进行翻译的中文" PNone), st)
  ∧ trans_en_to_zh transform req st
    = (Return (Response 400 400 "请输入要进行翻译的英文" PNone), st)
  ∧ summarize transform req st
    = (Return (Response 400 400 "请输入要总结的文本" PNone), st).
Proof.
  intros Hjson Htext. unfold text_of in Htext.
  unfold trans_zh_to_en, trans_en_to_zh, summarize. unfold_M.
  rewrite Hjson. simpl. by rewrite Htext.
Qed.

(** X3.  The 英译中 view on a truthy text that the text service translates:
    the service is called once, for the translation into Chinese of that
    text, and the answer is 200 with the text as [original] and the
    translation as [translated]. *)
Theorem trans_en_to_zh_translates req d text translated st :
  get_json req = Return (PDict d) →
  d !! "text" = Some text →
  truthy text = true →
  transform TranslateEnToZh text = Return translated →
  trans_en_to_zh transform req st
  = (Return (Response 200 200 "翻译成功"
               (PDict {[ "original" := text; "translated" := translated ]})),
     set_calls (calls st ++ [(TranslateEnToZh, text)]) st).
Proof.
  intros Hjson Hd Htext Hsvc.
  by rewrite (trans_en_to_zh_run transform req d text st), Hsvc.
Qed.

(** X4.  The 文本总结 view on a truthy text that the text service
    summarizes: the service is called once, for the summary of that text,
    and the answer is 200 with the text as [original] and the summary as
    [summarized]. *)
Theorem summarize_summarizes req d text summarized st :
  get_json req = Return (PDict d) →
  d !! "text" = Some text →
  truthy text = true →
  transform Summarize text = Return summarized →
  summarize transform req st
  = (Return (Response 200 200 "总结成功"
               (PDict {[ "original" := text; "summarized" := summarized ]})),
     set_calls (calls st ++ [(Summarize, text)]) st).
Proof.
  intros Hjson Hd Htext Hsvc.
  by rewrite (summarize_run req d text st), Hsvc.
Qed.

(** X5.  When the text service raises, a synchronous view answers 500 with
    the message "服务器出错," followed by the text of the exception and a
    null [data]; the call stays in the log. *)
Theorem sync_views_service_failure req d text e1 e2 st :
  get_json req = Return (PDict d) →
  d !! "text" = Some text →
  truthy text = true →
  transform TranslateEnToZh text = Raise e1 →
  transform Summarize text = Raise e2 →
  trans_zh_to_en transform req st
  = (Return (Response 500 500 ("服务器出错," +:+ exn_msg e1) PNone),
     set_calls (calls st ++ [(TranslateEnToZh, text)]) st)
  ∧ trans_en_to_zh transform req st
    = (Return (Response 500 500 ("服务器出错," +:+ exn_msg e1) PNone),
       set_calls (calls st ++ [(TranslateEnToZh, text)]) st)
  ∧ summarize transform req st
    = (Return (Response 500 500 ("服务器出错," +:+ exn_msg e2) PNone),
       set_calls (calls st ++ [(Summarize, text)]) st).
Proof.
  intros Hjson Hd Htext H1 H2.
  by rewrite (trans_zh_to_en_run transform req d text st),
    (trans_en_to_zh_run transform req d text st),
    (summarize_run req d text st), H1, H2.
Qed.

End SyncViews.

(** ** The gateway, case by case *)

Section GatewayCases.

Variable transform : kind → pyval → result pyval.
Variable uuid : nat → string.
Variable py_str : pyval → string.

(** [create_async_task] as a decision table. *)
Lemma create_async_task_cases task_type req st :
  create_async_task uuid task_type req st
  = match get_json req with
    | Return (PDict d) =>
        if truthy (text_of d) then
          match task_of_type task_type with
          | Some t =>
              if redis_up st then
                (Return (Response 200 200 "任务已提交"
                           (PDict {[ "task_id" := PStr (uuid (next_uuid st));
                                     "status" := PStr "pending";
                                     "result_url" :=
                                       PStr ("/api/task/" +:+ uuid (next_uuid st)) ]})),
                 set_queue (queue st ++ [TaskMessage (uuid (next_uuid st)) t (text_of d)])
                   (set_next_uuid (S (next_uuid st)) st))
              else
                (Return (Response 500 500 "服务暂时不可用" PNone),
                 set_next_uuid (S (next_uuid st)) st)
          | None => (Return (Response 400 400 "未知任务类型" PNone), st)
          end
        else (Return (Response 400 400 "请输入文本" PNone), st)
    | _ => (Return (Response 500 500 "服务暂时不可用" PNone), st)
    end.
Proof.
  unfold create_async_task, task_of_type, text_of. unfold_M.
  destruct (get_json req) as [data|e]; simpl; [|done].
  destruct data; simpl; try done.
  destruct (truthy _); simpl; [|done].
  destruct (task_type =? "zh_to_en")%string; [by destruct (redis_up st)|].
  destruct (task_type =? "en_to_zh")%string; [by destruct (redis_up st)|].
  destruct (task_type =? "summarize")%string; [by destruct (redis_up st)|done].
Qed.

Lemma task_of_type_known task_type t :
  task_of_type task_type = Some t ↔ (task_type, t) ∈ known_task_types.
Proof.
  unfold task_of_type, known_task_types. rewrite !elem_of_cons, elem_of_nil.
  split.
  - intros H. repeat case_match; simplify_eq;
      rewrite ?String.eqb_eq in *; subst; auto.
  - intros [?|[?|[?|[]]]]; by simplify_eq.
Qed.

Lemma envelope_ok_200 msg d : envelope_ok (Response 200 200 msg d).
Proof. unfold envelope_ok. simpl. split_and!; [done|auto|by intros []]. Qed.

Lemma envelope_ok_400 msg : envelope_ok (Response 400 400 msg PNone).
Proof. unfold envelope_ok. simpl. split_and!; auto. Qed.

Lemma envelope_ok_500 msg : envelope_ok (Response 500 500 msg PNone).
Proof. unfold envelope_ok. simpl. split_and!; auto. Qed.

Local Hint Resolve envelope_ok_200 envelope_ok_400 envelope_ok_500 : core.

(** X6.  Every view answers every request in every state of the
    deployment: no exception escapes a view.  The answer carries its code
    as HTTP status, the code is 200, 400 or 500, and [data] is null unless
    the code is 200; the status query never answers 400. *)
Theorem views_always_answer req task_type task_id st :
  answers (trans_zh_to_en transform req) st envelope_ok
  ∧ answers (trans_en_to_zh transform req) st envelope_ok
  ∧ answers (summarize transform req) st envelope_ok
  ∧ answers (create_async_task uuid task_type req) st envelope_ok
  ∧ answers (get_task_result py_str task_id) st
      (λ r, envelope_ok r ∧ code r ≠ 400%Z).
Proof.
  unfold answers. split_and!.
  - unfold trans_zh_to_en. run_M.
  - unfold trans_en_to_zh. run_M.
  - unfold summarize. run_M.
  - rewrite create_async_task_cases. repeat case_match; simpl; eauto.
  - unfold get_task_result. destruct (redis_up st) eqn:?; run_M;
      eexists; (split; [done|]); split; auto; done.
Qed.

(** X7.  A request whose text cannot be read, because [get_json] raises
    or because the body is not a JSON object, is answered 500 and changes
    nothing.  The synchronous views put the text of the exception into the
    message; [create_async_task] answers with the fixed message
    "服务暂时不可用". *)
Theorem unreadable_body_is_500 task_type req e st :
  body_error req = Some e →
  trans_zh_to_en transform req st
  = (Return (Response 500 500 ("服务器出错," +:+ exn_msg e) PNone), st)
  ∧ trans_en_to_zh transform req st
    = (Return (Response 500 500 ("服务器出错," +:+ exn_msg e) PNone), st)
  ∧ summarize transform req st
    = (Return (Response 500 500 ("服务器出错," +:+ exn_msg e) PNone), st)
  ∧ create_async_task uuid task_type req st
    = (Return (Response 500 500 "服务暂时不可用" PNone), st).
Proof.
  unfold body_error. intros He.
  unfold trans_zh_to_en, trans_en_to_zh, summarize, create_async_task. unfold_M.
  destruct (get_json req) as [data|e']; simpl in *; [|by simplify_eq].
  destruct (py_get data "text" (PStr "")); by simplify_eq.
Qed.

(** X8.  A submission of a known kind with a truthy text while Redis is
    down is answered 500 with the message "服务暂时不可用" and a null
    [data]; no message is published and the result store, the running
    tasks and the log of calls are as before. *)
Theorem create_async_task_dispatch_failure task_type t req d st :
  (task_type, t) ∈ known_task_types →
  get_json req = Return (PDict d) →
  truthy (text_of d) = true →
  redis_up st = false →
  ∃ st', create_async_task uuid task_type req st
         = (Return (Response 500 500 "服务暂时不可用" PNone), st')
    ∧ queue st' = queue st ∧ running st' = running st
    ∧ backend st' = backend st ∧ calls st' = calls st.
Proof.
  intros Hty%task_of_type_known Hjson Htext Hup.
  rewrite create_async_task_cases, Hjson, Htext, Hty, Hup. by eexists.
Qed.

(** X9.  [create_async_task] changes the queue exactly when it answers 200.
    It answers 200 only on a JSON object body with a truthy text, a known
    task type and Redis up, and then appends one message: the task of that
    type, on that text, under the id it returns.  It never writes the
    result store, the running tasks or the log of calls. *)
Theorem create_async_task_enqueues_iff_200 task_type req st :
  answers (create_async_task uuid task_type req) st (λ r,
    let st' := snd (create_async_task uuid task_type req st) in
    running st' = running st ∧ backend st' = backend st
    ∧ calls st' = calls st ∧ redis_up st' = redis_up st
    ∧ ((code r = 200%Z
        ∧ redis_up st = true
        ∧ ∃ t d, get_json req = Return (PDict d)
            ∧ truthy (text_of d) = true
            ∧ (task_type, t) ∈ known_task_types
            ∧ field "task_id" r = Some (PStr (uuid (next_uuid st)))
            ∧ queue st'
              = queue st ++ [TaskMessage (uuid (next_uuid st)) t (text_of d)])
       ∨ (code r ≠ 200%Z ∧ queue st' = queue st))).
Proof.
  unfold answers. rewrite create_async_task_cases.
  destruct (get_json req) as [data|e]; [|eexists; split; [done|]; simpl; auto 10].
  destruct data; try (eexists; split; [done|]; simpl; by auto 10).
  destruct (truthy (text_of d)) eqn:Htext;
    [|eexists; split; [done|]; simpl; by auto 10].
  destruct (task_of_type task_type) as [t|] eqn:Hty;
    [|eexists; split; [done|]; simpl; by auto 10].
  destruct (redis_up st) eqn:Hup; [|eexists; split; [done|]; simpl; by auto 10].
  eexists; split; [done|]. simpl. split_and!; try done.
  left. split_and!; try done. exists t, d. split_and!; try done.
  by apply task_of_type_known.
Qed.

(** X10.  Each asynchronous route starts its own task: whatever the
    request, the zh_to_en route leaves the queue as it is or appends one
    message for [trans_zh_to_en_async], the en_to_zh route one for
    [trans_en_to_zh_async], the summarize route one for [summarize_async];
    and no route answers "未知任务类型". *)
Theorem async_routes_start_own_task req st :
  (enqueues_only uuid task_trans_zh_to_en_async st
     (snd (async_zh_to_en_translation uuid req st))
   ∧ answers (async_zh_to_en_translation uuid req) st
       (λ r, message r ≠ "未知任务类型"))
  ∧ (enqueues_only uuid task_trans_en_to_zh_async st
       (snd (async_en_to_zh_translation uuid req st))
     ∧ answers (async_en_to_zh_translation uuid req) st
         (λ r, message r ≠ "未知任务类型"))
  ∧ (enqueues_only uuid task_summarize_async st
       (snd (async_summarize uuid req st))
     ∧ answers (async_summarize uuid req) st
         (λ r, message r ≠ "未知任务类型")).
Proof.
  unfold async_zh_to_en_translation, async_en_to_zh_translation,
    async_summarize, enqueues_only, answers.
  rewrite !create_async_task_cases. simpl.
  destruct (get_json req) as [data|e];
    [|split_and!; first [by left|by eexists]].
  destruct data; try (split_and!; first [by left|by eexists]).
  destruct (truthy (text_of d)); [|split_and!; first [by left|by eexists]].
  destruct (redis_up st); simpl;
    split_and!; first [by left|by eexists|right; by eexists].
Qed.

End GatewayCases.

(** ** The status query and the worker, case by case *)

Section WorkerCases.

Variable transform : kind → pyval → result pyval.
Variable uuid : nat → string.
Variable py_str : pyval → string.

(** The footprint of [create_async_task] outside the queue. *)
Lemma create_async_task_frame task_type req st :
  let st' := snd (create_async_task uuid task_type req st) in
  running st' = running st ∧ backend st' = backend st ∧ calls st' = calls st.
Proof.
  rewrite create_async_task_cases. by repeat case_match.
Qed.

(** One step adds at most one call, and a well-formed one, to the log. *)
Lemma step_calls st st' :
  step transform uuid py_str st st' →
  calls st' = calls st ∨ ∃ c, call_ok c ∧ calls st' = calls st ++ [c].
Proof.
  destruct 1 as [req st r st' H|req st r st' H|req st r st' H
                |ty req st r st' H|task_id st r st' H|st st' H|i st st' H|b st].
  - destruct (trans_zh_to_en_state transform req st) as [Hs|(text & Ht & Hs)];
      rewrite H in Hs; simpl in Hs; subst; [by left|right].
    exists (TranslateEnToZh, text). unfold call_ok. simpl. auto.
  - destruct (trans_en_to_zh_state transform req st) as [Hs|(text & Ht & Hs)];
      rewrite H in Hs; simpl in Hs; subst; [by left|right].
    exists (TranslateEnToZh, text). unfold call_ok. simpl. auto.
  - destruct (summarize_state transform req st) as [Hs|(text & Ht & Hs)];
      rewrite H in Hs; simpl in Hs; subst; [by left|right].
    exists (Summarize, text). unfold call_ok. simpl. auto.
  - left. pose proof (create_async_task_frame ty req st) as Hf.
    rewrite H in Hf. simpl in Hf. tauto.
  - left. pose proof (get_task_result_state py_str task_id st) as Hs.
    rewrite H in Hs. simpl in Hs. by subst.
  - left. by apply worker_begin_inv in H as (_ & m & q & Hq & ->).
  - left. by apply worker_end_inv in H as (_ & m & Hm & ->).
  - by left.
Qed.

(** One step writes at most one record to the result store: a task in
    progress, or the failure of a task on the call of its view. *)
Lemma step_backend st st' :
  step transform uuid py_str st st' →
  backend st' = backend st
  ∨ ∃ task_id m, backend st' = <[task_id := m]> (backend st)
      ∧ (m = processing_meta ∨ ∃ t, m = failure_meta t).
Proof.
  destruct 1 as [req st r st' H|req st r st' H|req st r st' H
                |ty req st r st' H|task_id st r st' H|st st' H|i st st' H|b st].
  - left. destruct (trans_zh_to_en_state transform req st) as [Hs|(text & Ht & Hs)];
      rewrite H in Hs; simpl in Hs; by subst.
  - left. destruct (trans_en_to_zh_state transform req st) as [Hs|(text & Ht & Hs)];
      rewrite H in Hs; simpl in Hs; by subst.
  - left. destruct (summarize_state transform req st) as [Hs|(text & Ht & Hs)];
      rewrite H in Hs; simpl in Hs; by subst.
  - left. pose proof (create_async_task_frame ty req st) as Hf.
    rewrite H in Hf. simpl in Hf. tauto.
  - left. pose proof (get_task_result_state py_str task_id st) as Hs.
    rewrite H in Hs. simpl in Hs. by subst.
  - right. apply worker_begin_inv in H as (_ & m & q & Hq & ->).
    exists (msg_id m), processing_meta. auto.
  - right. apply worker_end_inv in H as (_ & m & Hm & ->).
    exists (msg_id m), (failure_meta (msg_task m)). split; [done|]. right. by eexists.
  - by left.
Qed.

Lemma backend_reachable st task_id m :
  reachable transform uuid py_str st →
  backend st !! task_id = Some m →
  m = processing_meta ∨ ∃ t, m = failure_meta t.
Proof.
  unfold reachable. intros Hreach. revert st Hreach task_id m.
  apply (rtc_ind_r (λ st, ∀ task_id m, backend st !! task_id = Some m →
                            m = processing_meta ∨ ∃ t, m = failure_meta t));
    [done|].
  intros st st' _ Hstep IH task_id m Hb.
  destruct (step_backend st st' Hstep) as [Heq|(id & m' & Heq & Hm')];
    rewrite Heq in Hb; [by eapply IH|].
  apply lookup_insert_Some in Hb as [[_ <-]|[_ Hb]]; [done|by eapply IH].
Qed.

(** X11.  A stored state other than PENDING, PROCESSING and SUCCESS
    (FAILURE, but also RETRY, REVOKED, STARTED, ...) is shown as failed
    with a null result; the error is [str] of the stored info, or
    "未知错误" when the info is falsy. *)
Theorem get_task_result_other_state task_id state info st :
  redis_up st = true →
  backend st !! task_id = Some (Meta state info) →
  state ≠ "PENDING" → state ≠ "PROCESSING" → state ≠ "SUCCESS" →
  get_task_result py_str task_id st
  = (Return (Response 200 200 "成功"
               (PDict {[ "status" := PStr "failed";
                         "result" := PNone;
                         "error" := PStr (if info_truthy info
                                          then info_str py_str info
                                          else "未知错误") ]})), st).
Proof.
  intros Hup Hb H1%String.eqb_neq H2%String.eqb_neq H3%String.eqb_neq.
  unfold get_task_result. unfold_M.
  rewrite Hup, Hb. simpl. rewrite H1, H2, H3. simpl. by rewrite Hup, Hb.
Qed.

(** X12.  In a reachable deployment the status query for a non-empty
    task id answers 500 exactly when Redis is down; otherwise it answers
    200. *)
Theorem get_task_result_500_iff_redis_down st task_id :
  reachable transform uuid py_str st →
  task_id ≠ "" →
  answers (get_task_result py_str task_id) st
    (λ r, (code r = 500%Z ↔ redis_up st = false)
          ∧ (code r = 200%Z ↔ redis_up st = true)).
Proof.
  intros Hreach _. unfold answers.
  destruct (redis_up st) eqn:Hup.
  - destruct (backend st !! task_id) as [m|] eqn:Hb.
    + destruct (backend_reachable st task_id m Hreach Hb) as [->|[t ->]].
      * rewrite get_task_result_processing by done. by eexists.
      * unfold failure_meta. rewrite (get_task_result_failure _ _ _ _ Hup Hb).
        by eexists.
    + rewrite get_task_result_pending by done. by eexists.
  - rewrite get_task_result_down by done. by eexists.
Qed.

(** X13.  When a worker takes the task at the head of the queue, the task
    leaves the queue and joins the running tasks, the text service is not
    called, and from then on the status query shows the task as
    processing, with a null result. *)
Theorem worker_begin_shows_processing st m q :
  redis_up st = true →
  queue st = m :: q →
  ∃ st', worker_begin transform st = Some st'
    ∧ queue st' = q ∧ running st' = running st ++ [m]
    ∧ calls st' = calls st
    ∧ get_task_result py_str (msg_id m) st' = (Return processing_response, st').
Proof.
  intros Hup Hq. eexists. split; [by apply worker_begin_run|].
  split_and!; try done.
  apply get_task_result_processing; [done|]. simpl. apply lookup_insert_eq.
Qed.

(** X14.  Each of the three tasks ends the same way.  When a running task
    wakes up, its call of the view raises the TypeError of a call with one
    argument too many; the worker stores the failure, the text service is
    not called, and the status query shows the task as failed, with the
    message of the TypeError as error. *)
Theorem worker_end_task_fails st i m :
  redis_up st = true →
  running st !! i = Some m →
  ∃ st', worker_end transform i st = Some st'
    ∧ queue st' = queue st ∧ running st' = delete i (running st)
    ∧ calls st' = calls st
    ∧ get_task_result py_str (msg_id m) st'
      = (Return (failed_response (msg_task m)), st').
Proof.
  intros Hup Hi. eexists. split; [by apply worker_end_run|].
  split_and!; try done.
  unfold failed_response.
  apply (get_task_result_failure py_str (msg_id m)
           (arity_error (view_name (msg_task m)) 0 1)); [done|].
  simpl. apply lookup_insert_eq.
Qed.

(** X15.  In a reachable deployment every answer of the status query with
    code 200 is one of three: pending, processing, or failed with the
    TypeError of one of the three tasks as error.  No task is ever shown
    as completed. *)
Theorem reachable_poll_shapes st task_id r st' :
  reachable transform uuid py_str st →
  get_task_result py_str task_id st = (Return r, st') →
  code r = 200%Z →
  r = pending_response ∨ r = processing_response ∨ ∃ t, r = failed_response t.
Proof.
  intros Hreach Hr Hcode.
  destruct (redis_up st) eqn:Hup;
    [|rewrite get_task_result_down in Hr by done; by simplify_eq].
  destruct (backend st !! task_id) as [m|] eqn:Hb.
  - destruct (backend_reachable st task_id m Hreach Hb) as [->|[t ->]].
    + rewrite get_task_result_processing in Hr by done. simplify_eq. auto.
    + unfold failure_meta in Hb.
      rewrite (get_task_result_failure _ _ _ _ Hup Hb) in Hr. simplify_eq.
      right; right. by exists t.
  - rewrite get_task_result_pending in Hr by done. simplify_eq. auto.
Qed.

(** X16.  In a reachable deployment every call of the text service was
    made on a truthy text, and for a translation into Chinese or for a
    summary: no view and no task ever asks for a translation into
    English. *)
Theorem text_service_calls_ok st :
  reachable transform uuid py_str st →
  Forall call_ok (calls st).
Proof.
  unfold reachable. revert st. apply rtc_ind_r; [by constructor|].
  intros st st' _ Hstep IH.
  destruct (step_calls st st' Hstep) as [->|(c & Hc & ->)]; [done|].
  apply Forall_app. split; [done|]. by constructor.
Qed.

(** The status query reads the Redis flag and one entry of the store. *)
Lemma get_task_result_ext task_id st st' :
  redis_up st' = redis_up st →
  backend st' !! task_id = backend st !! task_id →
  fst (get_task_result py_str task_id st')
  = fst (get_task_result py_str task_id st).
Proof.
  intros Hup Hb. unfold get_task_result. unfold_M.
  destruct (redis_up st) eqn:U; rewrite Hup; [|done].
  destruct (backend st !! task_id) as [[s i]|] eqn:E; rewrite Hb; simpl; [|done].
  destruct (s =? "PENDING")%string; [done|].
  destruct (s =? "PROCESSING")%string; [done|].
  destruct (s =? "SUCCESS")%string; simpl; rewrite Hup, Hb, U, E; simpl;
    [by destruct i|done].
Qed.

(** X20.  No cross-talk.  A step that leaves the Redis flag alone changes
    the answer of the status query for no task id other than those of the
    waiting and running tasks: submissions, synchronous requests, polls
    and the work on other tasks leave the answer for an id, its status,
    result and error, as it was. *)
Theorem poll_unchanged_by_other_steps st st' task_id :
  step transform uuid py_str st st' →
  redis_up st' = redis_up st →
  (∀ m, m ∈ queue st ++ running st → msg_id m ≠ task_id) →
  fst (get_task_result py_str task_id st')
  = fst (get_task_result py_str task_id st).
Proof.
  intros Hstep Hup Hother. apply get_task_result_ext; [done|].
  destruct Hstep as [req st r st' H|req st r st' H|req st r st' H
                    |ty req st r st' H|id st r st' H|st st' H|i st st' H|b st].
  - destruct (trans_zh_to_en_state transform req st) as [Hs|(text & Ht & Hs)];
      rewrite H in Hs; simpl in Hs; by subst.
  - destruct (trans_en_to_zh_state transform req st) as [Hs|(text & Ht & Hs)];
      rewrite H in Hs; simpl in Hs; by subst.
  - destruct (summarize_state transform req st) as [Hs|(text & Ht & Hs)];
      rewrite H in Hs; simpl in Hs; by subst.
  - pose proof (create_async_task_frame ty req st) as Hf.
    rewrite H in Hf. simpl in Hf. destruct Hf as (_ & -> & _). done.
  - pose proof (get_task_result_state py_str id st) as Hs.
    rewrite H in Hs. simpl in Hs. by subst.
  - apply worker_begin_inv in H as (_ & m & q & Hq & ->). simpl.
    apply lookup_insert_ne, Hother. rewrite Hq.
    apply elem_of_app. left. apply elem_of_cons. by left.
  - apply worker_end_inv in H as (_ & m & Hm & ->). simpl.
    apply lookup_insert_ne, Hother.
    apply elem_of_app. right. by eapply list_elem_of_lookup_2.
  - done.
Qed.

(** From here on the supply never repeats an id. *)
Hypothesis uuid_inj : Inj (=) (=) uuid.

(** X17.  Submit, then poll.  In a reachable deployment with Redis up, a
    submission of a known kind with a truthy text returns an id that no
    waiting or running task carries and under which the result store
    holds nothing; the status query for that id, asked right after the
    submission, shows pending with a null result. *)
Theorem submit_then_poll_pending task_type t req d st :
  reachable transform uuid py_str st →
  redis_up st = true →
  (task_type, t) ∈ known_task_types →
  get_json req = Return (PDict d) →
  truthy (text_of d) = true →
  ∃ r st', create_async_task uuid task_type req st = (Return r, st')
    ∧ field "task_id" r = Some (PStr (uuid (next_uuid st)))
    ∧ (∀ m, m ∈ queue st ++ running st → msg_id m ≠ uuid (next_uuid st))
    ∧ backend st !! uuid (next_uuid st) = None
    ∧ get_task_result py_str (uuid (next_uuid st)) st'
      = (Return pending_response, st').
Proof.
  intros Hreach Hup Hty%task_of_type_known Hjson Htext.
  pose proof (store_inv_reachable transform uuid py_str st Hreach) as [Hm Hk _].
  assert (Hnone : backend st !! uuid (next_uuid st) = None).
  { destruct (backend st !! uuid (next_uuid st)) eqn:Hb; [|done].
    by apply Hk, (fresh_not_issued uuid uuid_inj) in Hb. }
  rewrite create_async_task_cases, Hjson, Htext, Hty, Hup.
  do 2 eexists. split; [done|]. split_and!; try done.
  - intros m Hin Heq. apply (fresh_not_issued uuid uuid_inj st).
    rewrite <- Heq. by apply Hm.
  - by apply get_task_result_pending.
Qed.

(** X18.  In a reachable deployment no two waiting or running tasks share
    an id; and while Redis is up the status query shows every waiting task
    as pending and every running task as processing. *)
Theorem in_flight_tasks st :
  reachable transform uuid py_str st →
  redis_up st = true →
  NoDup (msg_id <$> (queue st ++ running st))
  ∧ (∀ m, m ∈ queue st →
       get_task_result py_str (msg_id m) st = (Return pending_response, st))
  ∧ (∀ m, m ∈ running st →
       get_task_result py_str (msg_id m) st = (Return processing_response, st)).
Proof.
  intros Hreach Hup.
  pose proof (queue_inv_reachable transform uuid py_str uuid_inj st Hreach)
    as [Hnd Hq Hr].
  split_and!; [done| |].
  - intros m Hm. apply get_task_result_pending; auto.
  - intros m Hm. apply get_task_result_processing; auto.
Qed.

(** A task shown as failed stays failed. *)
Lemma failed_stays st st' task_id :
  reachable transform uuid py_str st →
  rtc (step transform uuid py_str) st st' →
  render_state (state_of st task_id) = "failed" →
  render_state (state_of st' task_id) = "failed".
Proof.
  intros Hreach Hrtc Hf.
  pose proof (render_state_steps transform uuid py_str uuid_inj st st' task_id
                Hreach Hrtc) as Hl.
  rewrite Hf in Hl. apply lifecycle_terminal in Hl; auto.
Qed.

(** The workers can run every waiting and every running task to its end. *)
Lemma drain n st :
  reachable transform uuid py_str st →
  redis_up st = true →
  (2 * length (queue st) + length (running st) ≤ n)%nat →
  ∃ st', rtc (step transform uuid py_str) st st'
    ∧ queue st' = [] ∧ running st' = [] ∧ redis_up st' = true
    ∧ ∀ m, m ∈ queue st ++ running st →
        render_state (state_of st' (msg_id m)) = "failed".
Proof.
  revert st. induction n as [|n IH]; intros st Hreach Hup Hn.
  - destruct (queue st) eqn:Hq; [|simpl in Hn; lia].
    destruct (running st) eqn:Hr; [|simpl in Hn; lia].
    exists st. split_and!; try done. by intros m ?%elem_of_nil.
  - destruct (running st) as [|m r] eqn:Hr.
    + destruct (queue st) as [|m q] eqn:Hq.
      { exists st. split_and!; try done. by intros m ?%elem_of_nil. }
      pose proof (worker_begin_run transform st m q Hup Hq) as Hb.
      set (st1 := set_running (running st ++ [m])
                    (set_backend (<[msg_id m := processing_meta]> (backend st))
                       (set_queue q st))) in *.
      assert (Hstep : step transform uuid py_str st st1)
        by by apply step_worker_begin.
      destruct (IH st1) as (st' & Hrtc & Hq' & Hr' & Hup' & Hall).
      { unfold reachable in *. by eapply rtc_r. }
      { done. }
      { simpl. rewrite Hr. simpl in *. lia. }
      exists st'. split_and!; try done; [by eapply rtc_l|].
      intros m0 Hm0. apply Hall. simpl. rewrite Hr. simpl.
      rewrite app_nil_r in Hm0. apply elem_of_app.
      apply elem_of_cons in Hm0 as [->|?]; [right; by apply list_elem_of_singleton|by left].
    + assert (Hi : running st !! 0%nat = Some m) by by rewrite Hr.
      pose proof (worker_end_run transform st 0 m Hup Hi) as He.
      set (st1 := mark_as_failure (msg_id m)
                    (arity_error (view_name (msg_task m)) 0 1)
                    (set_running (delete 0%nat (running st)) st)) in *.
      assert (Hstep : step transform uuid py_str st st1)
        by by apply (step_worker_end _ _ _ 0%nat).
      assert (Hreach1 : reachable transform uuid py_str st1).
      { unfold reachable in *. by eapply rtc_r. }
      destruct (IH st1) as (st' & Hrtc & Hq' & Hr' & Hup' & Hall); [done..| |].
      { simpl. rewrite Hr. simpl in *. lia. }
      exists st'. split_and!; try done; [by eapply rtc_l|].
      intros m0 Hm0. apply elem_of_app in Hm0 as [Hm0|Hm0].
      * apply Hall. simpl. apply elem_of_app. by left.
      * apply elem_of_cons in Hm0 as [->|Hm0].
        -- apply (failed_stays st1); [done..|].
           unfold state_of. simpl. by rewrite lookup_insert_eq.
        -- apply Hall. simpl. rewrite Hr. simpl. apply elem_of_app. by right.
Qed.

(** X19.  No task is stuck for ever.  From every reachable deployment with
    Redis up the workers can take and run the tasks until the queue is
    empty and nothing is running; the status query then shows every task
    that was waiting or running as failed. *)
Theorem tasks_can_be_drained st :
  reachable transform uuid py_str st →
  redis_up st = true →
  ∃ st', rtc (step transform uuid py_str) st st'
    ∧ queue st' = [] ∧ running st' = []
    ∧ ∀ m, m ∈ queue st ++ running st →
        observes py_str st' (msg_id m) "failed".
Proof.
  intros Hreach Hup.
  destruct (drain _ st Hreach Hup (le_n _)) as (st' & Hrtc & Hq & Hr & Hup' & Hall).
  exists st'. split_and!; try done.
  intros m Hm. specialize (Hall m Hm).
  assert (Hreach' : reachable transform uuid py_str st').
  { unfold reachable in *. by etrans. }
  unfold state_of in Hall.
  destruct (backend st' !! msg_id m) as [mt|] eqn:Hb; [|done].
  destruct (backend_reachable st' _ mt Hreach' Hb) as [->|[t ->]]; [done|].
  unfold failure_meta in Hb. exists (failed_response t), st'.
  split; [|done]. by apply (get_task_result_failure py_str _ _ _ Hup' Hb).
Qed.

End WorkerCases.

(** ** Concrete runs of the further properties *)

Lemma sync_views_reject_falsy_text_witness :
  get_json (text_request "") = Return (PDict {[ "text" := PStr "" ]})
  ∧ truthy (text_of {[ "text" := PStr "" ]}) = false
  ∧ trans_zh_to_en sample_transform (text_request "") sample_submitted
    = (Return (Response 400 400 "请输入要进行翻译的中文" PNone), sample_submitted)
  ∧ trans_en_to_zh sample_transform (text_request "") sample_submitted
    = (Return (Response 400 400 "请输入要进行翻译的英文" PNone), sample_submitted)
  ∧ summarize sample_transform (text_request "") sample_submitted
    = (Return (Response 400 400 "请输入要总结的文本" PNone), sample_submitted).
Proof.
  split; [reflexivity|]. split; [reflexivity|].
  apply (sync_views_reject_falsy_text sample_transform (text_request "")
           {[ "text" := PStr "" ]} sample_submitted); reflexivity.
Defined.

Lemma trans_en_to_zh_translates_witness :
  truthy (PStr "hello") = true
  ∧ sample_transform TranslateEnToZh (PStr "hello") = Return (PStr "你好")
  ∧ trans_en_to_zh sample_transform (text_request "hello") init
    = (Return (Response 200 200 "翻译成功"
                 (PDict {[ "original" := PStr "hello";
                           "translated" := PStr "你好" ]})),
       set_calls ([] ++ [(TranslateEnToZh, PStr "hello")]) init).
Proof.
  split; [reflexivity|]. split; [reflexivity|].
  apply (trans_en_to_zh_translates sample_transform (text_request "hello")
           {[ "text" := PStr "hello" ]} (PStr "hello") (PStr "你好") init);
    reflexivity.
Defined.

Lemma summarize_summarizes_witness :
  truthy (PStr "long text") = true
  ∧ sample_transform Summarize (PStr "long text") = Return (PStr "long text")
  ∧ summarize sample_transform (text_request "long text") init
    = (Return (Response 200 200 "总结成功"
                 (PDict {[ "original" := PStr "long text";
                           "summarized" := PStr "long text" ]})),
       set_calls ([] ++ [(Summarize, PStr "long text")]) init).
Proof.
  split; [reflexivity|]. split; [reflexivity|].
  apply (summarize_summarizes sample_transform (text_request "long text")
           {[ "text" := PStr "long text" ]} (PStr "long text")
           (PStr "long text") init);
    reflexivity.
Defined.

Lemma sync_views_service_failure_witness :
  truthy (PStr "hello") = true
  ∧ failing_transform TranslateEnToZh (PStr "hello") = Raise sample_timeout
  ∧ failing_transform Summarize (PStr "hello") = Raise sample_timeout
  ∧ trans_zh_to_en failing_transform (text_request "hello") init
    = (Return (Response 500 500 "服务器出错,model timed out" PNone),
       set_calls ([] ++ [(TranslateEnToZh, PStr "hello")]) init)
  ∧ trans_en_to_zh failing_transform (text_request "hello") init
    = (Return (Response 500 500 "服务器出错,model timed out" PNone),
       set_calls ([] ++ [(TranslateEnToZh, PStr "hello")]) init)
  ∧ summarize failing_transform (text_request "hello") init
    = (Return (Response 500 500 "服务器出错,model timed out" PNone),
       set_calls ([] ++ [(Summarize, PStr "hello")]) init).
Proof.
  split; [reflexivity|]. split; [reflexivity|]. split; [reflexivity|].
  apply (sync_views_service_failure failing_transform (text_request "hello")
           {[ "text" := PStr "hello" ]} (PStr "hello")
           sample_timeout sample_timeout init);
    reflexivity.
Defined.

Lemma unreadable_body_is_500_witness :
  body_error bad_request = Some sample_bad_json
  ∧ trans_zh_to_en sample_transform bad_request sample_submitted
    = (Return (Response 500 500
                 "服务器出错,400 Bad Request: Failed to decode JSON object" PNone),
       sample_submitted)
  ∧ trans_en_to_zh sample_transform bad_request sample_submitted
    = (Return (Response 500 500
                 "服务器出错,400 Bad Request: Failed to decode JSON object" PNone),
       sample_submitted)
  ∧ summarize sample_transform bad_request sample_submitted
    = (Return (Response 500 500
                 "服务器出错,400 Bad Request: Failed to decode JSON object" PNone),
       sample_submitted)
  ∧ create_async_task sample_uuid "zh_to_en" bad_request sample_submitted
    = (Return (Response 500 500 "服务暂时不可用" PNone), sample_submitted).
Proof.
  split; [reflexivity|].
  apply (unreadable_body_is_500 sample_transform sample_uuid "zh_to_en"
           bad_request sample_bad_json sample_submitted).
  reflexivity.
Defined.

(** A body that is JSON but not an object, here [null]. *)
Example null_body_message :
  fst (trans_en_to_zh sample_transform (Request (Return PNone)) init)
  = Return (Response 500 500
              "服务器出错,'NoneType' object has no attribute 'get'" PNone).
Proof. reflexivity. Qed.

Lemma summarize_known : ("summarize", task_summarize_async) ∈ known_task_types.
Proof.
  unfold known_task_types. do 2 (apply elem_of_cons; right).
  apply elem_of_cons. by left.
Defined.

Lemma create_async_task_dispatch_failure_witness :
  ("summarize", task_summarize_async) ∈ known_task_types
  ∧ truthy (text_of {[ "text" := PStr "long text" ]}) = true
  ∧ redis_up sample_down = false
  ∧ ∃ st', create_async_task sample_uuid "summarize" (text_request "long text")
             sample_down
           = (Return (Response 500 500 "服务暂时不可用" PNone), st')
      ∧ queue st' = queue sample_down ∧ running st' = running sample_down
      ∧ backend st' = backend sample_down ∧ calls st' = calls sample_down.
Proof.
  split; [apply summarize_known|]. split; [reflexivity|]. split; [reflexivity|].
  apply (create_async_task_dispatch_failure sample_uuid "summarize"
           task_summarize_async (text_request "long text")
           {[ "text" := PStr "long text" ]} sample_down);
    [apply summarize_known|reflexivity..].
Defined.

Lemma get_task_result_other_state_witness :
  redis_up sample_revoked = true
  ∧ backend sample_revoked !! "task-7" = Some (Meta "REVOKED" (InfoVal PNone))
  ∧ "REVOKED" ≠ "PENDING" ∧ "REVOKED" ≠ "PROCESSING" ∧ "REVOKED" ≠ "SUCCESS"
  ∧ get_task_result sample_str "task-7" sample_revoked
    = (Return (Response 200 200 "成功"
                 (PDict {[ "status" := PStr "failed";
                           "result" := PNone;
                           "error" := PStr "未知错误" ]})), sample_revoked).
Proof.
  split; [reflexivity|]. split; [reflexivity|].
  split; [discriminate|]. split; [discriminate|]. split; [discriminate|].
  apply (get_task_result_other_state sample_str "task-7" "REVOKED"
           (InfoVal PNone) sample_revoked);
    [reflexivity|reflexivity|discriminate..].
Defined.

Lemma sample_down_reachable : sample_reachable sample_down.
Proof.
  eapply rtc_r; [apply sample_submitted_reachable|].
  apply (step_redis _ _ _ false).
Defined.

Lemma get_task_result_500_iff_redis_down_witness :
  sample_reachable sample_down
  ∧ "task-0" ≠ ""
  ∧ answers (get_task_result sample_str "task-0") sample_down
      (λ r, (code r = 500%Z ↔ redis_up sample_down = false)
            ∧ (code r = 200%Z ↔ redis_up sample_down = true)).
Proof.
  split; [apply sample_down_reachable|]. split; [discriminate|].
  apply (get_task_result_500_iff_redis_down sample_transform sample_uuid
           sample_str sample_down "task-0" sample_down_reachable).
  discriminate.
Defined.

Lemma worker_begin_shows_processing_witness :
  redis_up sample_submitted = true
  ∧ queue sample_submitted = sample_message :: []
  ∧ ∃ st', worker_begin sample_transform sample_submitted = Some st'
      ∧ queue st' = [] ∧ running st' = running sample_submitted ++ [sample_message]
      ∧ calls st' = calls sample_submitted
      ∧ get_task_result sample_str (msg_id sample_message) st'
        = (Return processing_response, st').
Proof.
  split; [reflexivity|]. split; [reflexivity|].
  apply (worker_begin_shows_processing sample_transform sample_str
           sample_submitted sample_message []); reflexivity.
Defined.

Lemma worker_end_task_fails_witness :
  redis_up sample_processing = true
  ∧ running sample_processing !! 0%nat = Some sample_message
  ∧ ∃ st', worker_end sample_transform 0 sample_processing = Some st'
      ∧ queue st' = queue sample_processing
      ∧ running st' = delete 0%nat (running sample_processing)
      ∧ calls st' = calls sample_processing
      ∧ get_task_result sample_str (msg_id sample_message) st'
        = (Return (failed_response (msg_task sample_message)), st').
Proof.
  split; [reflexivity|]. split; [reflexivity|].
  apply (worker_end_task_fails sample_transform sample_str
           sample_processing 0 sample_message); reflexivity.
Defined.

Lemma reachable_poll_shapes_witness :
  sample_reachable sample_finished
  ∧ get_task_result sample_str "task-0" sample_finished
    = (Return sample_failed_response, sample_finished)
  ∧ code sample_failed_response = 200%Z
  ∧ (sample_failed_response = pending_response
     ∨ sample_failed_response = processing_response
     ∨ ∃ t, sample_failed_response = failed_response t).
Proof.
  split; [apply sample_finished_reachable|].
  split; [reflexivity|]. split; [reflexivity|].
  apply (reachable_poll_shapes sample_transform sample_uuid sample_str
           sample_finished "task-0" sample_failed_response sample_finished);
    [apply sample_finished_reachable|reflexivity..].
Defined.

Lemma sample_translated_reachable : sample_reachable sample_translated.
Proof.
  apply rtc_once.
  by eapply (step_sync_en_to_zh _ _ _ (text_request "hello")).
Defined.

Lemma text_service_calls_ok_witness :
  sample_reachable sample_translated
  ∧ calls sample_translated = [(TranslateEnToZh, PStr "hello")]
  ∧ Forall call_ok (calls sample_translated).
Proof.
  split; [apply sample_translated_reachable|]. split; [reflexivity|].
  apply (text_service_calls_ok sample_transform sample_uuid sample_str
           sample_translated sample_translated_reachable).
Defined.

Lemma submit_then_poll_pending_witness :
  Inj (=) (=) sample_uuid
  ∧ sample_reachable sample_submitted
  ∧ redis_up sample_submitted = true
  ∧ ("summarize", task_summarize_async) ∈ known_task_types
  ∧ truthy (text_of {[ "text" := PStr "long text" ]}) = true
  ∧ ∃ r st', create_async_task sample_uuid "summarize" (text_request "long text")
               sample_submitted = (Return r, st')
      ∧ field "task_id" r = Some (PStr (sample_uuid (next_uuid sample_submitted)))
      ∧ (∀ m, m ∈ queue sample_submitted ++ running sample_submitted →
           msg_id m ≠ sample_uuid (next_uuid sample_submitted))
      ∧ backend sample_submitted !! sample_uuid (next_uuid sample_submitted) = None
      ∧ get_task_result sample_str (sample_uuid (next_uuid sample_submitted)) st'
        = (Return pending_response, st').
Proof.
  split; [apply sample_uuid_inj|]. split; [apply sample_submitted_reachable|].
  split; [reflexivity|]. split; [apply summarize_known|]. split; [reflexivity|].
  apply (submit_then_poll_pending sample_transform sample_uuid sample_str
           sample_uuid_inj "summarize" task_summarize_async
           (text_request "long text") {[ "text" := PStr "long text" ]}
           sample_submitted);
    [apply sample_submitted_reachable|reflexivity|apply summarize_known
    |reflexivity..].
Defined.

Lemma in_flight_tasks_witness :
  Inj (=) (=) sample_uuid
  ∧ sample_reachable sample_processing
  ∧ redis_up sample_processing = true
  ∧ running sample_processing = [sample_message]
  ∧ NoDup (msg_id <$> (queue sample_processing ++ running sample_processing))
  ∧ (∀ m, m ∈ queue sample_processing →
       get_task_result sample_str (msg_id m) sample_processing
       = (Return pending_response, sample_processing))
  ∧ (∀ m, m ∈ running sample_processing →
       get_task_result sample_str (msg_id m) sample_processing
       = (Return processing_response, sample_processing)).
Proof.
  split; [apply sample_uuid_inj|]. split; [apply sample_processing_reachable|].
  split; [reflexivity|]. split; [reflexivity|].
  apply (in_flight_tasks sample_transform sample_uuid sample_str
           sample_uuid_inj sample_processing sample_processing_reachable).
  reflexivity.
Defined.

Lemma tasks_can_be_drained_witness :
  Inj (=) (=) sample_uuid
  ∧ sample_reachable sample_submitted
  ∧ redis_up sample_submitted = true
  ∧ queue sample_submitted = [sample_message]
  ∧ ∃ st', rtc sample_step sample_submitted st'
      ∧ queue st' = [] ∧ running st' = []
      ∧ ∀ m, m ∈ queue sample_submitted ++ running sample_submitted →
          observes sample_str st' (msg_id m) "failed".
Proof.
  split; [apply sample_uuid_inj|]. split; [apply sample_submitted_reachable|].
  split; [reflexivity|]. split; [reflexivity|].
  apply (tasks_can_be_drained sample_transform sample_uuid sample_str
           sample_uuid_inj sample_submitted sample_submitted_reachable).
  reflexivity.
Defined.

Lemma sample_other_id m :
  m ∈ queue sample_processing ++ running sample_processing →
  msg_id m ≠ "task-9".
Proof.
  change (queue sample_processing ++ running sample_processing)
    with [sample_message].
  intros ->%list_elem_of_singleton. discriminate.
Defined.

Lemma poll_unchanged_by_other_steps_witness :
  sample_step sample_processing sample_finished
  ∧ redis_up sample_finished = redis_up sample_processing
  ∧ (∀ m, m ∈ queue sample_processing ++ running sample_processing →
       msg_id m ≠ "task-9")
  ∧ fst (get_task_result sample_str "task-9" sample_finished)
    = fst (get_task_result sample_str "task-9" sample_processing).
Proof.
  split; [apply sample_finished_step|]. split; [reflexivity|].
  split; [apply sample_other_id|].
  apply (poll_unchanged_by_other_steps sample_transform sample_uuid sample_str
           sample_processing sample_finished "task-9" sample_finished_step);
    [reflexivity|apply sample_other_id].
Defined.
